(** * Quota Ledger and Order Coordinator: a shallow embedding

    The two services of the repository ([services/discount] and
    [services/order]) talk through one Firestore database: the [events]
    collection is the append-only log, [daily_quotas] holds one counter
    document per calendar day (IST).  The Firestore client, the clock and
    the HTTP layer are the environment; they are modelled just far enough
    to run the handlers of the two services on concrete inputs. *)

From Stdlib Require Import ZArith String Ascii DecimalString.
From stdpp Require Import gmap strings list fin_maps relations.

Local Open Scope Z_scope.

#[local] Set Warnings "-register-all".

(** ** Machine integers *)

Definition min_int64 : Z := - 2 ^ 63.
Definition max_int64 : Z := 2 ^ 63 - 1.

(** Go's [int64] arithmetic wraps around. *)
Definition wrap64 (z : Z) : Z := (z + 2 ^ 63) mod 2 ^ 64 - 2 ^ 63.

Definition int64_range (z : Z) : Prop := min_int64 <= z <= max_int64.

(** ** Results, panics and log records *)

Inductive result (A : Type) : Type :=
| Ok (a : A)
| Err (e : string).
Arguments Ok {A} a.
Arguments Err {A} e.

#[global] Instance result_ret : MRet result := fun _ a => Ok a.
#[global] Instance result_bind : MBind result := fun _ _ f r =>
  match r with
  | Ok a => f a
  | Err e => Err e
  end.

Inductive level := Info | Warn | Error.

(** A record of [slog]: the level and the message (the key/value
    attributes are not kept). *)
Record logrec := Log { lvl : level; msg : string }.

(** ** Firestore documents *)

Module Firestore.

(** A [float64] is kept as its IEEE-754 bit pattern: the services copy
    prices around and print them, they never compute with them. *)
Definition float64 := Z.

Inductive value :=
| VNull
| VBool (b : bool)
| VInt (z : Z)
| VDouble (bits : float64)
| VString (s : string)
| VTime (t : Z)
| VArray (l : list value)
| VMap (m : gmap string value).

(** [map[string]interface{}], what [DocumentSnapshot.Data] returns. *)
Abbreviation doc := (gmap string value).

(** The type assertions [x.(string)] and [x.(int64)] on a field of
    [Data()]: [None] when the field is absent or holds another type. *)
Definition as_string (o : option value) : option string :=
  match o with
  | Some (VString s) => Some s
  | _ => None
  end.

Definition as_int64 (o : option value) : option Z :=
  match o with
  | Some (VInt z) => Some z
  | _ => None
  end.

(** [float64(i)] for an [int64]: round to nearest, ties to even. *)
Definition float64_of_int64 (i : Z) : float64 :=
  if i =? 0 then 0
  else
    let sign := if i <? 0 then 2 ^ 63 else 0 in
    let a := Z.abs i in
    let p := Z.log2 a in
    if p <=? 52 then sign + (p + 1023) * 2 ^ 52 + (a * 2 ^ (52 - p) - 2 ^ 52)
    else
      let sh := p - 52 in
      let q := a / 2 ^ sh in
      let r := a mod 2 ^ sh in
      let half := 2 ^ (sh - 1) in
      let up := (half <? r) || ((r =? half) && Z.odd q) in
      let q' := if up then q + 1 else q in
      (* a carry out of the mantissa bumps the exponent *)
      sign + (p + 1023) * 2 ^ 52 + (q' - 2 ^ 52).

(** [DataTo] sets one struct field from one document field.  An absent
    or null field leaves the zero value; a value of another type is an
    error; an integer is accepted where a float is expected. *)
Definition to_string (field : string) (o : option value) : result string :=
  match o with
  | None | Some VNull => Ok ""
  | Some (VString s) => Ok s
  | Some _ => Err ("firestore: cannot set " +:+ field)
  end.

Definition to_bool (field : string) (o : option value) : result bool :=
  match o with
  | None | Some VNull => Ok false
  | Some (VBool b) => Ok b
  | Some _ => Err ("firestore: cannot set " +:+ field)
  end.

Definition to_float64 (field : string) (o : option value) : result float64 :=
  match o with
  | None | Some VNull => Ok 0
  | Some (VDouble f) => Ok f
  | Some (VInt i) => Ok (float64_of_int64 i)
  | Some _ => Err ("firestore: cannot set " +:+ field)
  end.

Definition to_time (field : string) (o : option value) : result Z :=
  match o with
  | None | Some VNull => Ok 0
  | Some (VTime t) => Ok t
  | Some _ => Err ("firestore: cannot set " +:+ field)
  end.

Fixpoint to_slice {A} (field : string) (elem : value -> result A)
    (l : list value) : result (list A) :=
  match l with
  | [] => Ok []
  | v :: l' =>
      a ← elem v;
      r ← to_slice field elem l';
      mret (a :: r)
  end.

End Firestore.
Export Firestore.

(** ** pkg/events *)

Module events.

Definition EventTypeOrderCreated := "OrderCreated".
Definition EventTypeDiscountReserved := "DiscountReserved".
Definition EventTypeDiscountRejected := "DiscountRejected".
Definition EventTypeDiscountRelease := "DiscountRelease".

Record BaseEvent := {
  TraceID : string;
  Type_ : string;
  Timestamp : Z;
}.

Record Service := {
  svc_Name : string;
  svc_Price : float64;
}.

Record OrderCreated := {
  oc_base : BaseEvent;
  oc_OrderID : string;
  UserID : string;
  Name : string;
  Gender : string;
  DOB : string;
  SelectedServices : list Service;
  BasePrice : float64;
  IsR1Eligible : bool;
  DiscountPercent : float64;
  FinalPrice : float64;
}.

Record DiscountReserved := {
  rs_base : BaseEvent;
  rs_OrderID : string;
  rs_Status : string;
}.

Record DiscountRejected := {
  rj_base : BaseEvent;
  rj_OrderID : string;
  rj_Status : string;
  rj_Reason : string;
}.

Record DiscountRelease := {
  rl_base : BaseEvent;
  rl_OrderID : string;
  rl_Reason : string;
}.

(** *** Struct to document (the [firestore:"..."] tags; the embedded
    [BaseEvent] is flattened) *)

Definition base_fields (b : BaseEvent) (d : doc) : doc :=
  <["trace_id" := VString (TraceID b)]>
    (<["type" := VString (Type_ b)]>
      (<["timestamp" := VTime (Timestamp b)]> d)).

Definition doc_of_Service (s : Service) : value :=
  VMap (<["name" := VString (svc_Name s)]>
         (<["price" := VDouble (svc_Price s)]> ∅)).

Definition doc_of_OrderCreated (e : OrderCreated) : doc :=
  base_fields (oc_base e)
    (<["order_id" := VString (oc_OrderID e)]>
    (<["user_id" := VString (UserID e)]>
    (<["name" := VString (Name e)]>
    (<["gender" := VString (Gender e)]>
    (<["dob" := VString (DOB e)]>
    (<["selected_services" := VArray (doc_of_Service <$> SelectedServices e)]>
    (<["base_price" := VDouble (BasePrice e)]>
    (<["is_r1_eligible" := VBool (IsR1Eligible e)]>
    (<["discount_percent" := VDouble (DiscountPercent e)]>
    (<["final_price" := VDouble (FinalPrice e)]> ∅)))))))))).

Definition doc_of_DiscountReserved (e : DiscountReserved) : doc :=
  base_fields (rs_base e)
    (<["order_id" := VString (rs_OrderID e)]>
    (<["status" := VString (rs_Status e)]> ∅)).

Definition doc_of_DiscountRejected (e : DiscountRejected) : doc :=
  base_fields (rj_base e)
    (<["order_id" := VString (rj_OrderID e)]>
    (<["status" := VString (rj_Status e)]>
    (<["reason" := VString (rj_Reason e)]> ∅))).

Definition doc_of_DiscountRelease (e : DiscountRelease) : doc :=
  base_fields (rl_base e)
    (<["order_id" := VString (rl_OrderID e)]>
    (<["reason" := VString (rl_Reason e)]> ∅)).

(** *** Document to struct ([DocumentSnapshot.DataTo]) *)

Definition BaseEvent_of_doc (d : doc) : result BaseEvent :=
  tr ← to_string "trace_id" (d !! "trace_id");
  ty ← to_string "type" (d !! "type");
  ts ← to_time "timestamp" (d !! "timestamp");
  mret {| TraceID := tr; Type_ := ty; Timestamp := ts |}.

Definition Service_of_value (v : value) : result Service :=
  match v with
  | VNull => Ok {| svc_Name := ""; svc_Price := 0 |}
  | VMap m =>
      n ← to_string "name" (m !! "name");
      p ← to_float64 "price" (m !! "price");
      mret {| svc_Name := n; svc_Price := p |}
  | _ => Err "firestore: cannot set selected_services"
  end.

Definition Services_of_doc (o : option value) : result (list Service) :=
  match o with
  | None | Some VNull => Ok []
  | Some (VArray l) => to_slice "selected_services" Service_of_value l
  | Some _ => Err "firestore: cannot set selected_services"
  end.

Definition OrderCreated_of_doc (d : doc) : result OrderCreated :=
  b ← BaseEvent_of_doc d;
  oid ← to_string "order_id" (d !! "order_id");
  uid ← to_string "user_id" (d !! "user_id");
  nm ← to_string "name" (d !! "name");
  g ← to_string "gender" (d !! "gender");
  dob ← to_string "dob" (d !! "dob");
  ss ← Services_of_doc (d !! "selected_services");
  bp ← to_float64 "base_price" (d !! "base_price");
  el ← to_bool "is_r1_eligible" (d !! "is_r1_eligible");
  dp ← to_float64 "discount_percent" (d !! "discount_percent");
  fp ← to_float64 "final_price" (d !! "final_price");
  mret {| oc_base := b; oc_OrderID := oid; UserID := uid; Name := nm;
          Gender := g; DOB := dob; SelectedServices := ss; BasePrice := bp;
          IsR1Eligible := el; DiscountPercent := dp; FinalPrice := fp |}.

Definition DiscountReserved_of_doc (d : doc) : result DiscountReserved :=
  b ← BaseEvent_of_doc d;
  oid ← to_string "order_id" (d !! "order_id");
  st ← to_string "status" (d !! "status");
  mret {| rs_base := b; rs_OrderID := oid; rs_Status := st |}.

Definition DiscountRejected_of_doc (d : doc) : result DiscountRejected :=
  b ← BaseEvent_of_doc d;
  oid ← to_string "order_id" (d !! "order_id");
  st ← to_string "status" (d !! "status");
  rs ← to_string "reason" (d !! "reason");
  mret {| rj_base := b; rj_OrderID := oid; rj_Status := st; rj_Reason := rs |}.

Definition DiscountRelease_of_doc (d : doc) : result DiscountRelease :=
  b ← BaseEvent_of_doc d;
  oid ← to_string "order_id" (d !! "order_id");
  rs ← to_string "reason" (d !! "reason");
  mret {| rl_base := b; rl_OrderID := oid; rl_Reason := rs |}.

End events.

(** ** The clock and the formatting done by Go's standard library *)

Module gotime.

(** Decimal digits of a non-negative number. *)
Definition digits (n : Z) : string :=
  NilZero.string_of_uint (N.to_uint (Z.to_N n)).

Fixpoint zeros (k : nat) : string :=
  match k with
  | O => ""
  | S k' => String "0" (zeros k')
  end.

(** [appendInt] of package [time]: a sign if negative, then the digits
    left-padded with zeros to [width]. *)
Definition appendInt (x : Z) (width : nat) : string :=
  let s := digits (Z.abs x) in
  (if x <? 0 then "-" else "") +:+ zeros (width - String.length s) +:+ s.

(** Civil date of a day number counted from 1970-01-01 (proleptic
    Gregorian calendar). *)
Definition civil_from_days (days : Z) : Z * Z * Z :=
  let z := days + 719468 in
  let era := z / 146097 in
  let doe := z - era * 146097 in
  let yoe := (doe - doe / 1460 + doe / 36524 - doe / 146096) / 365 in
  let doy := doe - (365 * yoe + yoe / 4 - yoe / 100) in
  let mp := (5 * doy + 2) / 153 in
  let d := doy - (153 * mp + 2) / 5 + 1 in
  let m := if mp <? 10 then mp + 3 else mp - 9 in
  let y := yoe + era * 400 + (if m <=? 2 then 1 else 0) in
  (y, m, d).

(** [t.In(time.FixedZone(_, offset)).Format("2006-01-02")] for an instant
    [t] given in seconds since the Unix epoch. *)
Definition format_date (offset : Z) (t : Z) : string :=
  let '(y, m, d) := civil_from_days ((t + offset) / 86400) in
  appendInt y 4 +:+ "-" +:+ appendInt m 2 +:+ "-" +:+ appendInt d 2.

(** [fmt.Sprintf("%.2f", x)]: the exact value of [x] rounded to two
    decimals, ties to even. *)
Definition sprintf_2f (x : float64) : string :=
  let neg := Z.testbit x 63 in
  let e := (x / 2 ^ 52) mod 2 ^ 11 in
  let m := x mod 2 ^ 52 in
  if e =? 2047 then
    if m =? 0 then (if neg then "-Inf" else "+Inf") else "NaN"
  else
    let mant := if e =? 0 then m else m + 2 ^ 52 in
    let ex := (if e =? 0 then 1 else e) - 1075 in
    let num := mant * 100 * 2 ^ Z.max ex 0 in
    let den := 2 ^ Z.max (- ex) 0 in
    let q := num / den in
    let r := num mod den in
    let up := (den <? 2 * r) || ((2 * r =? den) && Z.odd q) in
    let c := if up then q + 1 else q in
    (if neg then "-" else "") +:+ digits (c / 100) +:+ "." +:+ appendInt (c mod 100) 2.

End gotime.

(** ** The database, its failures and its transactions *)

Module store.

(** The two collections.  Documents of [events] get a fresh identifier
    each; the list keeps them in the order they were added. *)
Record database := Database {
  events : list doc;
  daily_quotas : gmap string doc;
}.

(** The store operation that fails during a handler run, if any. *)
Inductive fault :=
| NoFault
| FailQuery      (* Query.Documents(..).GetAll *)
| FailGet        (* Transaction.Get, other than a missing document *)
| FailSetQuota   (* Transaction.Set on the counter *)
| FailSetEvent   (* Transaction.Set on the new event *)
| FailCommit     (* the commit of RunTransaction *)
| FailAdd.       (* CollectionRef.Add *)

#[global] Instance fault_eq_dec : EqDecision fault.
Proof. solve_decision. Defined.

(** What a handler run reads from its environment: the clock
    ([time.Now()], seconds since the epoch) and the store's health. *)
Record env := Env { now : Z; failing : fault }.

Inductive code := NotFound | Unavailable.

Inductive get_result :=
| Found (d : doc)
| GetErr (c : code).

Definition status_message (c : code) : string :=
  match c with
  | NotFound => "rpc error: code = NotFound"
  | Unavailable => "rpc error: code = Unavailable"
  end.

(** [tx.Get(daily_quotas/key)] *)
Definition tx_Get (e : env) (db : database) (key : string) : get_result :=
  if decide (failing e = FailGet) then GetErr Unavailable
  else match daily_quotas db !! key with
       | Some d => Found d
       | None => GetErr NotFound
       end.

(** The writes a transaction buffers until it commits. *)
Inductive write :=
| SetMergeAll (key : string) (fields : doc)
| SetNewDoc (d : doc).

(** [firestore.MergeAll]: the given fields overwrite, the others stay;
    the document is created when missing. *)
Definition apply_write (db : database) (w : write) : database :=
  match w with
  | SetMergeAll key fields =>
      {| events := events db;
         daily_quotas :=
           <[key := fields ∪ default ∅ (daily_quotas db !! key)]> (daily_quotas db) |}
  | SetNewDoc d =>
      {| events := events db ++ [d]; daily_quotas := daily_quotas db |}
  end.

(** [collection("events").Add(ctx, e)] *)
Definition Add (e : env) (d : doc) (db : database) : database * option string :=
  if decide (failing e = FailAdd) then (db, Some (status_message Unavailable))
  else (apply_write db (SetNewDoc d), None).

Inductive outcome (A : Type) : Type :=
| Done (a : A)
| Panic (what : string).
Arguments Done {A} a.
Arguments Panic {A} what.

(** A transaction function run on a snapshot: what it logged, and
    either the writes it buffered or the error it returned. *)
Definition tx_run := (list logrec * result (list write))%type.

(** [client.RunTransaction]: the function sees a consistent snapshot and
    its writes are committed together or not at all.  Transactions on
    one document serialise (the client retries on contention), so a
    committed transaction is one step from [db] to the new database. *)
Definition RunTransaction (e : env) (f : database -> outcome tx_run)
    (db : database) : outcome (database * list logrec * option string) :=
  match f db with
  | Panic what => Panic what
  | Done (logs, Err err) => Done (db, logs, Some err)
  | Done (logs, Ok ws) =>
      if decide (failing e = FailCommit)
      then Done (db, logs, Some (status_message Unavailable))
      else Done (foldl apply_write db ws, logs, None)
  end.

(** A query on [events]: [Where(field, "==", s)] and
    [Where(field, "in", l)]. *)
Definition where_eq (field s : string) (d : doc) : bool :=
  match as_string (d !! field) with
  | Some s' => String.eqb s' s
  | None => false
  end.

Definition where_in (field : string) (l : list string) (d : doc) : bool :=
  match as_string (d !! field) with
  | Some s' => existsb (String.eqb s') l
  | None => false
  end.

(** [OrderBy(field, _)], as far as it selects: a query ordered by a field
    returns only the documents that have this field, whatever its value
    (the order of delivery itself is not modelled). *)
Definition order_by (field : string) (d : doc) : bool :=
  match d !! field with
  | Some _ => true
  | None => false
  end.

End store.
Export store.

(** ** services/discount: the Quota Ledger *)

Module discount.
Import events.

Definition QuotaLimit : Z := 100.
(** [5*time.Hour + 30*time.Minute], in seconds. *)
Definition ISTOffset : Z := 5 * 3600 + 30 * 60.

(** [time.Now().In(ist).Format("2006-01-02")] *)
Definition today (e : env) : string := gotime.format_date ISTOffset (now e).

(** The query of [checkDecisionExists], as a test on one document. *)
Definition decision_of (orderID : string) (d : doc) : bool :=
  where_eq "order_id" orderID d
  && where_in "type" [EventTypeDiscountReserved; EventTypeDiscountRejected] d.

Definition checkDecisionExists (e : env) (db : database) (orderID : string)
    : result bool :=
  if decide (failing e = FailQuery) then Err (status_message Unavailable)
  else
    let snaps := take 1 (filter (λ d, decision_of orderID d) (events db)) in
    Ok (0 <? Z.of_nat (length snaps)).

(** [tx.Set] buffers a write unless the call itself fails. *)
Definition tx_Set (e : env) (f : fault) (w : write) (ws : list write)
    : result (list write) :=
  if decide (failing e = f) then Err (status_message Unavailable)
  else Ok (ws ++ [w]).

(** The two decision events of [runQuotaTransaction]. *)
Definition approved (e : env) (event : OrderCreated) : DiscountReserved :=
  {| rs_base := {| TraceID := TraceID (oc_base event);
                   Type_ := EventTypeDiscountReserved;
                   Timestamp := now e |};
     rs_OrderID := oc_OrderID event;
     rs_Status := "Approved" |}.

Definition rejected (e : env) (event : OrderCreated) : DiscountRejected :=
  {| rj_base := {| TraceID := TraceID (oc_base event);
                   Type_ := EventTypeDiscountRejected;
                   Timestamp := now e |};
     rj_OrderID := oc_OrderID event;
     rj_Status := "Rejected";
     rj_Reason := "Daily discount quota reached. Please try again tomorrow." |}.

(** The function that [runQuotaTransaction] hands to [RunTransaction]. *)
Definition quotaTx (e : env) (event : OrderCreated) (db : database) : tx_run :=
  (* 1. Determine Date in IST *)
  let quotaRef := today e in
  (* 2. Read current quota *)
  let read :=
    match tx_Get e db quotaRef with
    | GetErr NotFound => Ok 0
    | GetErr c => Err (status_message c)
    | Found d =>
        match as_int64 (d !! "count") with
        | Some v => Ok v
        | None => Ok 0
        end
    end in
  match read with
  | Err err => ([], Err err)
  | Ok currentCount =>
      (* 3. Decision *)
      if currentCount <? QuotaLimit then
        (* Approve *)
        let newCount := wrap64 (currentCount + 1) in
        match tx_Set e FailSetQuota
                (SetMergeAll quotaRef {["count" := VInt newCount]}) [] with
        | Err err => ([], Err err)
        | Ok ws =>
            ([Log Info "R2 Quota Reserved"],
             (* 4. Publish Decision *)
             tx_Set e FailSetEvent
               (SetNewDoc (doc_of_DiscountReserved (approved e event))) ws)
        end
      else
        (* Reject *)
        ([Log Info "R2 Quota Exhausted"],
         tx_Set e FailSetEvent
           (SetNewDoc (doc_of_DiscountRejected (rejected e event))) [])
  end.

Definition runQuotaTransaction (e : env) (event : OrderCreated) (db : database)
    : outcome (database * list logrec * option string) :=
  RunTransaction e (λ snap, Done (quotaTx e event snap)) db.

Definition processOrderEvent (e : env) (d : doc) (db : database)
    : outcome (database * list logrec) :=
  match OrderCreated_of_doc d with
  | Err _ => Done (db, [Log Error "Failed to parse event"])
  | Ok event =>
      (* Only process R1-eligible requests *)
      if negb (IsR1Eligible event)
      then Done (db, [Log Info "Skipping Non-R1-Eligible Order"])
      else
        let l1 := Log Info "Processing R1-Eligible Order" in
        (* Idempotency Check *)
        match checkDecisionExists e db (oc_OrderID event) with
        | Err _ => Done (db, [l1; Log Error "Failed to check existing decision"])
        | Ok true => Done (db, [l1; Log Info "Decision Already Exists"])
        | Ok false =>
            match runQuotaTransaction e event db with
            | Panic what => Panic what
            | Done (db', logs, Some _) =>
                Done (db', l1 :: logs ++ [Log Error "Transaction failed"])
            | Done (db', logs, None) => Done (db', l1 :: logs)
            end
        end
  end.

(** The function that [processReleaseEvent] hands to [RunTransaction].
    [doc.Data()["count"].(int64)] is an unchecked type assertion. *)
Definition releaseTx (e : env) (event : DiscountRelease) (db : database)
    : outcome tx_run :=
  let quotaRef := today e in
  match tx_Get e db quotaRef with
  | GetErr NotFound =>
      Done ([Log Info "Quota document not found for today, nothing to release"],
            Ok [])
  | GetErr c => Done ([], Err (status_message c))
  | Found d =>
      match as_int64 (d !! "count") with
      | None => Panic "interface conversion: interface {} is not int64"
      | Some count =>
          if 0 <? count then
            match tx_Set e FailSetQuota
                    (SetMergeAll quotaRef {["count" := VInt (wrap64 (count - 1))]})
                    [] with
            | Err err => Done ([], Err err)
            | Ok ws => Done ([Log Info "Quota Compensation Executed"], Ok ws)
            end
          else
            Done ([Log Info "Quota count is already zero, nothing to decrement"],
                  Ok [])
      end
  end.

Definition processReleaseEvent (e : env) (d : doc) (db : database)
    : outcome (database * list logrec) :=
  match DiscountRelease_of_doc d with
  | Err _ => Done (db, [Log Error "Failed to parse release event"])
  | Ok event =>
      match RunTransaction e (releaseTx e event) db with
      | Panic what => Panic what
      | Done (db', logs, Some _) =>
          Done (db', logs ++ [Log Error "Compensation failed"])
      | Done (db', logs, None) => Done (db', logs)
      end
  end.

(** The query of the subscription in [main]:
    [Where("type", "in", ...).OrderBy("timestamp", firestore.Asc)]. *)
Definition subscribed (d : doc) : bool :=
  where_in "type" [EventTypeOrderCreated; EventTypeDiscountRelease] d
  && order_by "timestamp" d.

(** The body of the loop over [snap.Changes] in [main], for one added
    document.  [change.Doc.Data()["type"].(string)] is unchecked. *)
Definition on_added (e : env) (d : doc) (db : database)
    : outcome (database * list logrec) :=
  match as_string (d !! "type") with
  | None => Panic "interface conversion: interface {} is not string"
  | Some eventType =>
      if String.eqb eventType EventTypeOrderCreated then processOrderEvent e d db
      else if String.eqb eventType EventTypeDiscountRelease then processReleaseEvent e d db
      else Done (db, [])
  end.

(** The subscription loop over a sequence of deliveries; a panic ends
    the process. *)
Fixpoint run (ds : list (env * doc)) (db : database)
    : outcome (database * list logrec) :=
  match ds with
  | [] => Done (db, [])
  | (e, d) :: ds' =>
      match on_added e d db with
      | Panic what => Panic what
      | Done (db', logs) =>
          match run ds' db' with
          | Panic what => Panic what
          | Done (db'', logs') => Done (db'', logs ++ logs')
          end
      end
  end.

(** The counter of a day as the reservation transaction reads it: a
    missing document counts as zero. *)
Definition reserved (db : database) (key : string) : Z :=
  match daily_quotas db !! key with
  | Some d => default 0 (as_int64 (d !! "count"))
  | None => 0
  end.

End discount.

(** ** services/order: the Order Coordinator *)

Module order.

Record Service := { Name : string; Price : float64 }.

Record OrderRequest := {
  UserID : string;
  req_Name : string;
  Gender : string;
  DOB : string;
  SelectedServices : list Service;
  BasePrice : float64;
  IsR1Eligible : bool;
  DiscountPercent : float64;
  FinalPrice : float64;
  SimulateFailure : bool;
}.

Record OrderResponse := {
  OrderID : string;
  Status : string;
  Message : string;
}.

(** What the handler writes: the status code and either the JSON
    encoding of an [OrderResponse] or the text of [http.Error]. *)
Inductive body :=
| JSON (r : OrderResponse)
| Text (s : string).

Record response := { StatusCode : Z; Body : body }.

Definition StatusOK := 200.
Definition StatusBadRequest := 400.
Definition StatusMethodNotAllowed := 405.
Definition StatusTooManyRequests := 429.
Definition StatusInternalServerError := 500.
Definition StatusGatewayTimeout := 504.

(** The request as the handler sees it: the method and what
    [json.NewDecoder(r.Body).Decode(&req)] gives ([None]: an error). *)
Record http_request := { Method : string; Decoded : option OrderRequest }.

(** The values sent on a response channel. *)
Inductive decision :=
| Reserved (d : events.DiscountReserved)
| Rejected (d : events.DiscountRejected).

(** [responseMap]: per pending order, its channel of capacity one, as
    the content of its buffer. *)
Abbreviation registry := (gmap string (option decision)).

Definition convertToEventServices (services : list Service) : list events.Service :=
  (λ s, {| events.svc_Name := Name s; events.svc_Price := Price s |}) <$> services.

(** Where [handleOrder] stands when it stops running: it has answered,
    or it blocks in [select] on its channel. *)
Inductive progress :=
| Answered (r : response)
| Waiting.

(** The [select]: a decision read from the channel, or the timer. *)
Inductive wakeup :=
| Received (d : decision)
| TimedOut.

(** [handleOrder] up to the [select].  [orderID] and [traceID] are the
    two [uuid.New().String()]. *)
Definition handleOrder_begin (e : env) (r : http_request) (orderID traceID : string)
    (db : database) (responseMap : registry)
    : database * registry * list logrec * progress :=
  if negb (String.eqb (Method r) "POST") then
    (db, responseMap, [],
     Answered {| StatusCode := StatusMethodNotAllowed; Body := Text "Method not allowed" |})
  else
    match Decoded r with
    | None =>
        (db, responseMap, [],
         Answered {| StatusCode := StatusBadRequest; Body := Text "Invalid Body" |})
    | Some req =>
        let l0 := Log Info "Order Received" in
        (* If R1 not eligible, complete order immediately without quota check *)
        if negb (IsR1Eligible req) then
          if SimulateFailure req then
            (db, responseMap,
             [l0; Log Warn "Simulating Payment Failure (Non-Discount Order)"],
             Answered {| StatusCode := StatusInternalServerError;
                         Body := JSON {| OrderID := orderID;
                                         Status := "FAILED";
                                         Message := "Payment processing failed (simulated)." |} |})
          else
            (db, responseMap,
             [l0; Log Info "Order Completed Without Discount"],
             Answered {| StatusCode := StatusOK;
                         Body := JSON {| OrderID := orderID;
                                         Status := "CONFIRMED";
                                         Message := "Booking confirmed! Total: ₹"
                                                    +:+ gotime.sprintf_2f (FinalPrice req)
                                                    +:+ " (No discount applied)" |} |})
        else
          (* Setup Response Channel for R1-eligible requests *)
          let registered := <[orderID := None]> responseMap in
          (* Publish OrderCreated event for discount quota check *)
          let event :=
            {| events.oc_base := {| events.TraceID := traceID;
                                    events.Type_ := events.EventTypeOrderCreated;
                                    events.Timestamp := now e |};
               events.oc_OrderID := orderID;
               events.UserID := UserID req;
               events.Name := req_Name req;
               events.Gender := Gender req;
               events.DOB := DOB req;
               events.SelectedServices := convertToEventServices (SelectedServices req);
               events.BasePrice := BasePrice req;
               events.IsR1Eligible := IsR1Eligible req;
               events.DiscountPercent := DiscountPercent req;
               events.FinalPrice := FinalPrice req |} in
          match Add e (events.doc_of_OrderCreated event) db with
          | (db', Some _) =>
              (* the deferred delete runs on return *)
              (db', delete orderID registered,
               [l0; Log Error "Failed to publish event"],
               Answered {| StatusCode := StatusInternalServerError;
                           Body := Text "Internal Server Error" |})
          | (db', None) =>
              (db', registered,
               [l0; Log Info "Order Event Published - Checking R2 Quota"],
               Waiting)
          end
    end.

(** [handleOrder] from the [select] on, for the request [req] that
    waits under [orderID]; the deferred delete runs at the end. *)
Definition handleOrder_resume (e : env) (req : OrderRequest) (orderID traceID : string)
    (w : wakeup) (db : database) (responseMap : registry)
    : database * registry * list logrec * response :=
  let deregistered := delete orderID responseMap in
  match w with
  | Received (Reserved d) =>
      let l0 := Log Info "Discount Reserved" in
      if SimulateFailure req then
        (* Publish Compensation *)
        let compEvent :=
          {| events.rl_base := {| events.TraceID := traceID;
                                  events.Type_ := events.EventTypeDiscountRelease;
                                  events.Timestamp := now e |};
             events.rl_OrderID := orderID;
             events.rl_Reason := "Payment Processing Failed (Simulated Failure)" |} in
        let '(db', _) := Add e (events.doc_of_DiscountRelease compEvent) db in
        (db', deregistered,
         [l0; Log Warn "Simulating Failure after Reservation"],
         {| StatusCode := StatusInternalServerError;
            Body := JSON {| OrderID := orderID;
                            Status := "FAILED";
                            Message := "Payment processing failed. Discount quota has been released." |} |})
      else
        (db, deregistered, [l0],
         {| StatusCode := StatusOK;
            Body := JSON {| OrderID := orderID;
                            Status := "CONFIRMED";
                            Message := "Booking confirmed! Final price: ₹"
                                       +:+ gotime.sprintf_2f (FinalPrice req)
                                       +:+ " (12% discount applied)" |} |})
  | Received (Rejected d) =>
      (db, deregistered, [Log Info "Discount Rejected"],
       {| StatusCode := StatusTooManyRequests;
          Body := JSON {| OrderID := orderID;
                          Status := "REJECTED";
                          Message := events.rj_Reason d |} |})
  | TimedOut =>
      (db, deregistered, [Log Error "Timeout waiting for discount decision"],
       {| StatusCode := StatusGatewayTimeout;
          Body := Text "Timeout waiting for discount service" |})
  end.

(** What the [select] of the handler waiting under [orderID] does:
    [timer] says that the ten seconds are over and that this case is the
    one taken; otherwise the decision that sits in the channel is read,
    and without one the handler stays blocked ([None]). *)
Definition select (orderID : string) (responseMap : registry) (timer : bool)
    : option wakeup :=
  match responseMap !! orderID with
  | Some (Some d) => Some (if timer then TimedOut else Received d)
  | _ => if timer then Some TimedOut else None
  end.

(** The query of the subscription in [listenForDecisions]:
    [Where("type", "in", ...).OrderBy("timestamp", firestore.Asc)]. *)
Definition subscribed (d : doc) : bool :=
  where_in "type" [events.EventTypeDiscountReserved;
                   events.EventTypeDiscountRejected] d
  && order_by "timestamp" d.

(** [change.Doc.DataTo(&e)] with the error dropped.  [DataTo] walks the
    fields of the document in the order of a Go map and stops at the
    first one it cannot set; [visited] tells which fields came before. *)
Definition DataTo_unchecked {A} (dec : doc -> result A) (zero : A)
    (visited : string -> bool) (d : doc) : A :=
  match dec d with
  | Ok a => a
  | Err _ =>
      match dec (filter (λ kv, visited kv.1 = true) d) with
      | Ok a => a
      | Err _ => zero
      end
  end.

Definition zero_BaseEvent : events.BaseEvent :=
  {| events.TraceID := ""; events.Type_ := ""; events.Timestamp := 0 |}.
Definition zero_DiscountReserved : events.DiscountReserved :=
  {| events.rs_base := zero_BaseEvent; events.rs_OrderID := ""; events.rs_Status := "" |}.
Definition zero_DiscountRejected : events.DiscountRejected :=
  {| events.rj_base := zero_BaseEvent; events.rj_OrderID := "";
     events.rj_Status := ""; events.rj_Reason := "" |}.

(** What became of one delivery to the listener. *)
Inductive routed :=
| Ignored                      (* nobody waits for this order *)
| Sent (responseMap : registry) (* the decision is in the channel *)
| Blocked.                     (* the channel is full: the send blocks *)

(** The body of the loop over [snap.Changes] in [listenForDecisions],
    for one added document.  Both type assertions are unchecked. *)
Definition on_added (visited : string -> bool) (d : doc) (responseMap : registry)
    : outcome routed :=
  match as_string (d !! "type") with
  | None => Panic "interface conversion: interface {} is not string"
  | Some eventType =>
      match as_string (d !! "order_id") with
      | None => Panic "interface conversion: interface {} is not string"
      | Some orderID =>
          match responseMap !! orderID with
          | None => Done Ignored
          | Some ch =>
              let e :=
                if String.eqb eventType events.EventTypeDiscountReserved
                then Reserved (DataTo_unchecked events.DiscountReserved_of_doc
                                 zero_DiscountReserved visited d)
                else Rejected (DataTo_unchecked events.DiscountRejected_of_doc
                                 zero_DiscountRejected visited d) in
              match ch with
              | None => Done (Sent (<[orderID := Some e]> responseMap))
              | Some _ => Done Blocked
              end
          end
      end
  end.

End order.

(** ** The system as a whole: what can be committed to the database *)

Module system.
Import events discount.

(** One committed change of the database: a reservation transaction
    returns (for any request, whatever the idempotency check saw and
    whichever instance of the Ledger ran it), the Ledger handles one
    delivery of its subscription, or some client adds an event (the
    Coordinator writes in no other way). *)
Inductive commits : relation database :=
| commits_reserve e event db db' logs err :
    runQuotaTransaction e event db = Done (db', logs, err) → commits db db'
| commits_ledger e d db db' logs :
    discount.on_added e d db = Done (db', logs) → commits db db'
| commits_add e d db db' err :
    Add e d db = (db', err) → commits db db'.

(** The counter invariant of the data model, for every day. *)
Definition within_quota (db : database) : Prop :=
  ∀ key, 0 <= reserved db key <= QuotaLimit.

(** Every counter document holds an integer [count] within the quota:
    the documents the Ledger itself writes. *)
Definition counters_wf (db : database) : Prop :=
  ∀ key d, daily_quotas db !! key = Some d →
    ∃ c, d !! "count" = Some (VInt c) ∧ 0 <= c <= QuotaLimit.

(** The events of one type in a log, and the decisions for one order. *)
Definition of_type (ty : string) (evs : list doc) : list doc :=
  filter (λ d, where_eq "type" ty d) evs.

Definition decisions_for (orderID : string) (evs : list doc) : list doc :=
  filter (λ d, decision_of orderID d) evs.

(** The database after a grant and after a denial on the day of [e]. *)
Definition granted_db (e : env) (event : OrderCreated) (db : database) : database :=
  {| events := events db ++ [doc_of_DiscountReserved (approved e event)];
     daily_quotas :=
       <[today e := {["count" := VInt (reserved db (today e) + 1)]}
                    ∪ default ∅ (daily_quotas db !! today e)]> (daily_quotas db) |}.

Definition denied_db (e : env) (event : OrderCreated) (db : database) : database :=
  {| events := events db ++ [doc_of_DiscountRejected (rejected e event)];
     daily_quotas := daily_quotas db |}.

(** The database after a release that found a positive counter. *)
Definition released_db (e : env) (db : database) : database :=
  {| events := events db;
     daily_quotas :=
       <[today e := {["count" := VInt (reserved db (today e) - 1)]}
                    ∪ default ∅ (daily_quotas db !! today e)]> (daily_quotas db) |}.

(** The decision document for a request that finds the counter at [c]. *)
Definition decision_at (c : Z) (r : env * OrderCreated) : doc :=
  if c <? QuotaLimit
  then doc_of_DiscountReserved (approved r.1 r.2)
  else doc_of_DiscountRejected (rejected r.1 r.2).

(** A request as the Ledger's subscription delivers it. *)
Definition delivery (r : env * OrderCreated) : env * doc :=
  (r.1, doc_of_OrderCreated r.2).

(** *** Concrete data for the examples *)

Definition no_events : database := {| events := []; daily_quotas := ∅ |}.

(** 2026-02-01 10:00:00 IST, the store healthy. *)
Definition feb1 : env := {| now := 1769920200; failing := NoFault |}.
(** 2026-02-01 23:59:00 IST and 2026-02-02 00:01:00 IST. *)
Definition feb1_late : env := {| now := 1769970540; failing := NoFault |}.
Definition feb2_early : env := {| now := 1769970660; failing := NoFault |}.

(** The database on 2026-02-01 with [n] reservations taken. *)
Definition taken (n : Z) : database :=
  {| events := []; daily_quotas := {["2026-02-01" := {["count" := VInt n]}]} |}.

Definition booking (orderID : string) (eligible : bool) : OrderCreated :=
  {| oc_base := {| TraceID := "trace-" +:+ orderID;
                   Type_ := EventTypeOrderCreated;
                   Timestamp := 1769920199 |};
     oc_OrderID := orderID;
     UserID := "u1"; Name := "Asha"; Gender := "female"; DOB := "1990-02-01";
     SelectedServices := [{| svc_Name := "MRI"; svc_Price := 4653432275910787072 |}];
     BasePrice := 4653432275910787072;
     IsR1Eligible := eligible;
     DiscountPercent := 4622945017495814144;
     FinalPrice := 4652746180655054848 |}.

Definition release_of (orderID : string) : DiscountRelease :=
  {| rl_base := {| TraceID := "trace-" +:+ orderID;
                   Type_ := EventTypeDiscountRelease;
                   Timestamp := 1769920300 |};
     rl_OrderID := orderID;
     rl_Reason := "Payment Processing Failed (Simulated Failure)" |}.

(** A request to the Coordinator: base price 1300, final price 1144
    when eligible (12% off). *)
Definition request (eligible simulate : bool) : order.OrderRequest :=
  {| order.UserID := "u1"; order.req_Name := "Asha"; order.Gender := "female";
     order.DOB := "1990-02-01";
     order.SelectedServices := [{| order.Name := "MRI"; order.Price := 4653432275910787072 |}];
     order.BasePrice := 4653432275910787072;
     order.IsR1Eligible := eligible;
     order.DiscountPercent := if eligible then 4622945017495814144 else 0;
     order.FinalPrice := if eligible then 4652746180655054848 else 4653432275910787072;
     order.SimulateFailure := simulate |}.

Definition post (req : order.OrderRequest) : order.http_request :=
  {| order.Method := "POST"; order.Decoded := Some req |}.

(** [n] eligible requests with the order identifiers 0, 1, ... *)
Definition bookings (e : env) (n : nat) : list (env * OrderCreated) :=
  (λ i, (e, booking (gotime.digits (Z.of_nat i)) true)) <$> seq 0 n.

(** *** One request through the whole saga

    A schedule in which each party runs as soon as it has something to
    do: the Coordinator up to its [select], the Ledger on the new events
    of its subscription, the listener on the new decisions, the
    Coordinator from its [select] on, and the Ledger again. *)

Definition ledger_catches_up (e : env) (seen : nat) (db : database)
    : outcome (database * list logrec) :=
  discount.run ((λ d, (e, d)) <$> filter (λ d, discount.subscribed d)
                                       (drop seen (events db))) db.

Fixpoint listener_catches_up (ds : list doc) (responseMap : order.registry)
    : outcome order.registry :=
  match ds with
  | [] => Done responseMap
  | d :: ds' =>
      match order.on_added (λ _, true) d responseMap with
      | Panic what => Panic what
      | Done (order.Sent responseMap') => listener_catches_up ds' responseMap'
      | Done _ => listener_catches_up ds' responseMap
      end
  end.

Definition serve_one (e : env) (req : order.OrderRequest) (orderID traceID : string)
    (db : database) : outcome (database * order.response) :=
  match order.handleOrder_begin e (post req) orderID traceID db ∅ with
  | (db1, _, _, order.Answered resp) => Done (db1, resp)
  | (db1, pending, _, order.Waiting) =>
      match ledger_catches_up e (length (events db)) db1 with
      | Panic what => Panic what
      | Done (db2, _) =>
          match listener_catches_up
                  (filter (λ d, order.subscribed d) (drop (length (events db1)) (events db2)))
                  pending with
          | Panic what => Panic what
          | Done pending' =>
              let w := default order.TimedOut (order.select orderID pending' false) in
              let '(db3, _, _, resp) :=
                order.handleOrder_resume e req orderID traceID w db2 pending' in
              match ledger_catches_up e (length (events db2)) db3 with
              | Panic what => Panic what
              | Done (db4, _) => Done (db4, resp)
              end
          end
      end
  end.

(** What the examples look at: the counter of 2026-02-01, the types of
    the events in the log, and the answer. *)
Definition outcome_of (r : outcome (database * order.response))
    : Z * list (option string) * option order.response :=
  match r with
  | Done (db, resp) =>
      (reserved db "2026-02-01", as_string ∘ (.!! "type") <$> events db, Some resp)
  | Panic _ => (-1, [], None)
  end.

End system.
Import events discount system.

(** ** Further notions about the log *)

(** No order has more than one decision in the log. *)
Definition decided_once (db : database) : Prop :=
  ∀ orderID, (length (decisions_for orderID (events db)) ≤ 1)%nat.

(** The events a step has added to the log. *)
Definition added (db db' : database) : list doc :=
  drop (length (events db)) (events db').

(** The two events [handleOrder] builds: the booking request it
    publishes and the compensation it publishes after a grant. *)
Definition order_event (e : env) (req : order.OrderRequest) (orderID traceID : string)
    : OrderCreated :=
  {| oc_base := {| TraceID := traceID;
                   Type_ := EventTypeOrderCreated;
                   Timestamp := now e |};
     oc_OrderID := orderID;
     UserID := order.UserID req;
     Name := order.req_Name req;
     Gender := order.Gender req;
     DOB := order.DOB req;
     SelectedServices := order.convertToEventServices (order.SelectedServices req);
     BasePrice := order.BasePrice req;
     IsR1Eligible := order.IsR1Eligible req;
     DiscountPercent := order.DiscountPercent req;
     FinalPrice := order.FinalPrice req |}.

Definition compensation (e : env) (orderID traceID : string) : DiscountRelease :=
  {| rl_base := {| TraceID := traceID;
                   Type_ := EventTypeDiscountRelease;
                   Timestamp := now e |};
     rl_OrderID := orderID;
     rl_Reason := "Payment Processing Failed (Simulated Failure)" |}.

(** * Properties *)

(** ** Arithmetic and store lemmas *)

Lemma QuotaLimit_bounds : 0 < QuotaLimit < max_int64.
Proof. unfold QuotaLimit, max_int64. lia. Qed.

Lemma wrap64_id z : int64_range z → wrap64 z = z.
Proof.
  unfold int64_range, min_int64, max_int64, wrap64. intros H.
  rewrite Z.mod_small; lia.
Qed.

Lemma database_eta db : {| events := events db; daily_quotas := daily_quotas db |} = db.
Proof. by destruct db. Qed.

Lemma merge_count_lookup (n : Z) (old : doc) :
  ({["count" := VInt n]} ∪ old) !! "count" = Some (VInt n).
Proof. apply lookup_union_Some_l. apply lookup_singleton_eq. Qed.

Lemma reserved_insert db evs key n old k :
  reserved {| events := evs;
              daily_quotas := <[key := {["count" := VInt n]} ∪ old]> (daily_quotas db) |} k
  = if decide (key = k) then n else reserved db k.
Proof.
  unfold reserved; simpl. rewrite lookup_insert. case_decide; [|done].
  by rewrite merge_count_lookup.
Qed.

Lemma reserved_granted_db e event db k :
  reserved (granted_db e event db) k
  = if decide (today e = k) then reserved db (today e) + 1 else reserved db k.
Proof. apply reserved_insert. Qed.

Lemma reserved_released_db e db k :
  reserved (released_db e db) k
  = if decide (today e = k) then reserved db (today e) - 1 else reserved db k.
Proof. apply reserved_insert. Qed.

Lemma reserved_same_quotas db db' k :
  daily_quotas db' = daily_quotas db → reserved db' k = reserved db k.
Proof. unfold reserved. by intros ->. Qed.

(** ** The reservation transaction, case by case *)

(** What [tx.Get] followed by the reading of [count] yields. *)
Lemma quotaTx_read e db :
  failing e ≠ FailGet →
  match tx_Get e db (today e) with
  | GetErr NotFound => Ok 0
  | GetErr c => Err (status_message c)
  | Found d => match as_int64 (d !! "count") with Some v => Ok v | None => Ok 0 end
  end = Ok (reserved db (today e)).
Proof.
  intros Hf. unfold tx_Get, reserved. rewrite decide_False by done.
  destruct (daily_quotas db !! today e) as [d|]; [|done].
  by destruct (as_int64 (d !! "count")).
Qed.

Lemma runQuotaTransaction_grant e event db :
  failing e = NoFault →
  int64_range (reserved db (today e)) →
  reserved db (today e) < QuotaLimit →
  runQuotaTransaction e event db
  = Done (granted_db e event db, [Log Info "R2 Quota Reserved"], None).
Proof.
  intros Hf Hr Hlt. pose proof QuotaLimit_bounds as HL.
  unfold runQuotaTransaction, RunTransaction, quotaTx.
  rewrite quotaTx_read by (rewrite Hf; done).
  rewrite (proj2 (Z.ltb_lt _ _) Hlt).
  unfold tx_Set. rewrite !decide_False by (rewrite Hf; done). simpl.
  rewrite wrap64_id; [done|].
  unfold int64_range in *. lia.
Qed.

Lemma runQuotaTransaction_deny e event db :
  failing e = NoFault →
  QuotaLimit <= reserved db (today e) →
  runQuotaTransaction e event db
  = Done (denied_db e event db, [Log Info "R2 Quota Exhausted"], None).
Proof.
  intros Hf Hge.
  unfold runQuotaTransaction, RunTransaction, quotaTx.
  rewrite quotaTx_read by (rewrite Hf; done).
  rewrite (proj2 (Z.ltb_ge _ _) Hge).
  unfold tx_Set. rewrite !decide_False by (rewrite Hf; done). done.
Qed.

(** Whatever fails, the transaction commits a grant, a denial, or
    nothing; it never panics. *)
Lemma runQuotaTransaction_cases e event db :
  ∃ db' logs err,
    runQuotaTransaction e event db = Done (db', logs, err) ∧
    ((db' = db ∧ err ≠ None) ∨
     (err = None ∧ reserved db (today e) < QuotaLimit ∧
      db' = {| events := events db ++ [doc_of_DiscountReserved (approved e event)];
               daily_quotas :=
                 <[today e := {["count" := VInt (wrap64 (reserved db (today e) + 1))]}
                              ∪ default ∅ (daily_quotas db !! today e)]> (daily_quotas db) |}) ∨
     (err = None ∧ QuotaLimit <= reserved db (today e) ∧ db' = denied_db e event db)).
Proof.
  unfold runQuotaTransaction, RunTransaction, quotaTx.
  destruct (decide (failing e = FailGet)) as [Hg|Hg].
  { unfold tx_Get. rewrite decide_True by done. simpl. eauto 10. }
  rewrite quotaTx_read by done.
  destruct (Z.ltb_spec (reserved db (today e)) QuotaLimit) as [Hlt|Hge].
  - unfold tx_Set.
    destruct (decide (failing e = FailSetQuota)); [simpl; eauto 10|].
    destruct (decide (failing e = FailSetEvent)); [simpl; eauto 10|].
    destruct (decide (failing e = FailCommit)); [simpl; eauto 10|].
    simpl. do 3 eexists. split; [done|]. right; left. done.
  - unfold tx_Set.
    destruct (decide (failing e = FailSetEvent)); [simpl; eauto 10|].
    destruct (decide (failing e = FailCommit)); [simpl; eauto 10|].
    simpl. do 3 eexists. split; [done|]. right; right. done.
Qed.

(** ** The release transaction, case by case *)

Lemma reserved_lookup db key d c :
  daily_quotas db !! key = Some d → d !! "count" = Some (VInt c) →
  reserved db key = c.
Proof. unfold reserved. by intros -> ->. Qed.

Lemma reserved_absent db key :
  daily_quotas db !! key = None → reserved db key = 0.
Proof. unfold reserved. by intros ->. Qed.



Lemma processReleaseEvent_decrement e d rel db qd c :
  DiscountRelease_of_doc d = Ok rel →
  failing e = NoFault →
  daily_quotas db !! today e = Some qd →
  qd !! "count" = Some (VInt c) →
  0 < c <= max_int64 →
  processReleaseEvent e d db
  = Done (released_db e db, [Log Info "Quota Compensation Executed"]).
Proof.
  intros Hd Hf Hq Hc Hpos. unfold processReleaseEvent, RunTransaction, releaseTx, tx_Get.
  rewrite Hd, decide_False, Hq, Hc by (rewrite Hf; done). simpl.
  rewrite (proj2 (Z.ltb_lt _ _) (proj1 Hpos)).
  unfold tx_Set. rewrite !decide_False by (rewrite Hf; done). simpl.
  unfold released_db. rewrite (reserved_lookup _ _ _ _ Hq Hc), Hq. simpl.
  rewrite wrap64_id; [done|].
  unfold int64_range, min_int64, max_int64 in *. lia.
Qed.

(** Whatever the event and whatever fails, a release that returns leaves
    the database as it is or takes one off a positive counter of today. *)
Lemma processReleaseEvent_cases e d db db' logs :
  processReleaseEvent e d db = Done (db', logs) →
  db' = db ∨
  (0 < reserved db (today e) ∧
   db' = {| events := events db;
            daily_quotas :=
              <[today e := {["count" := VInt (wrap64 (reserved db (today e) - 1))]}
                           ∪ default ∅ (daily_quotas db !! today e)]> (daily_quotas db) |}).
Proof.
  unfold processReleaseEvent, RunTransaction, releaseTx, tx_Get.
  destruct (DiscountRelease_of_doc d) as [rel|]; [|intros [= <- _]; by left].
  destruct (decide (failing e = FailGet)); [intros [= <- _]; by left|].
  destruct (daily_quotas db !! today e) as [qd|] eqn:Hq.
  2:{ destruct (decide (failing e = FailCommit)); intros [= <- _]; by left. }
  destruct (qd !! "count") as [[| | c | | | | |]|] eqn:Hc; simpl; try done.
  destruct (Z.ltb_spec 0 c) as [Hpos|Hle].
  2:{ destruct (decide (failing e = FailCommit)); intros [= <- _]; by left. }
  unfold tx_Set.
  destruct (decide (failing e = FailSetQuota)); [intros [= <- _]; by left|].
  destruct (decide (failing e = FailCommit)); [intros [= <- _]; by left|].
  simpl. intros [= <- _]. right.
  rewrite (reserved_lookup _ _ _ _ Hq Hc), Hq. done.
Qed.

(** A release panics only on a counter document whose [count] is not an
    integer. *)
Lemma processReleaseEvent_no_panic e d db :
  counters_wf db → ∃ db' logs, processReleaseEvent e d db = Done (db', logs).
Proof.
  intros Hwf. unfold processReleaseEvent, RunTransaction, releaseTx, tx_Get.
  destruct (DiscountRelease_of_doc d) as [rel|]; [|eauto].
  destruct (decide (failing e = FailGet)); [eauto|].
  destruct (daily_quotas db !! today e) as [qd|] eqn:Hq.
  2:{ destruct (decide (failing e = FailCommit)); eauto. }
  destruct (Hwf _ _ Hq) as (c & -> & _). simpl.
  unfold tx_Set.
  destruct (0 <? c); repeat (case_decide; simpl); eauto.
Qed.

(** ** The order handler of the Ledger, case by case *)

Lemma processOrderEvent_cases e d db :
  ∃ db' logs,
    processOrderEvent e d db = Done (db', logs) ∧
    (db' = db ∨
     ∃ event,
       OrderCreated_of_doc d = Ok event ∧ IsR1Eligible event = true ∧
       decisions_for (oc_OrderID event) (events db) = [] ∧
       ((reserved db (today e) < QuotaLimit ∧
         db' = {| events := events db ++ [doc_of_DiscountReserved (approved e event)];
                  daily_quotas :=
                    <[today e := {["count" := VInt (wrap64 (reserved db (today e) + 1))]}
                                 ∪ default ∅ (daily_quotas db !! today e)]> (daily_quotas db) |}) ∨
        (QuotaLimit <= reserved db (today e) ∧ db' = denied_db e event db))).
Proof.
  unfold processOrderEvent.
  destruct (OrderCreated_of_doc d) as [event|]; [|eauto].
  destruct (IsR1Eligible event) eqn:Hel; simpl; [|eauto].
  unfold checkDecisionExists.
  destruct (decide (failing e = FailQuery)); [eauto|].
  fold (decisions_for (oc_OrderID event) (events db)).
  destruct (decisions_for (oc_OrderID event) (events db)) as [|x l] eqn:Hdec; simpl; [|eauto].
  destruct (runQuotaTransaction_cases e event db)
    as (db' & logs & err & -> & [[-> Herr] | [(-> & Hlt & ->) | (-> & Hge & ->)]]).
  - destruct err; [eauto|done].
  - do 2 eexists. split; [done|]. right. exists event. eauto 10.
  - do 2 eexists. split; [done|]. right. exists event. eauto 10.
Qed.

(** The main loop of the Ledger on one delivery of its subscription. *)
Lemma on_added_subscribed e d db :
  discount.subscribed d = true →
  discount.on_added e d db = processOrderEvent e d db ∧ where_eq "type" EventTypeOrderCreated d = true
  ∨ discount.on_added e d db = processReleaseEvent e d db ∧ where_eq "type" EventTypeDiscountRelease d = true.
Proof.
  unfold discount.subscribed. intros [Hty _]%andb_true_iff. revert Hty.
  unfold discount.on_added, where_in, where_eq.
  destruct (as_string (d !! "type")) as [ty|]; [|done]. simpl.
  destruct (String.eqb ty EventTypeOrderCreated); [by left|].
  destruct (String.eqb ty EventTypeDiscountRelease); [by right|done].
Qed.

Lemma on_added_cases e d db db' logs :
  discount.on_added e d db = Done (db', logs) →
  db' = db ∨ processOrderEvent e d db = Done (db', logs)
  ∨ processReleaseEvent e d db = Done (db', logs).
Proof.
  unfold discount.on_added.
  destruct (as_string (d !! "type")) as [ty|]; [|done].
  destruct (String.eqb ty EventTypeOrderCreated); [eauto|].
  destruct (String.eqb ty EventTypeDiscountRelease); [eauto|].
  intros [= <- _]. by left.
Qed.

(** ** Encoding and decoding of events *)

Lemma base_fields_type b d : base_fields b d !! "type" = Some (VString (Type_ b)).
Proof. unfold base_fields. by rewrite lookup_insert_ne, lookup_insert_eq. Qed.

Lemma base_fields_other b d k :
  k ≠ "trace_id" → k ≠ "type" → k ≠ "timestamp" → base_fields b d !! k = d !! k.
Proof. intros. unfold base_fields. by rewrite !lookup_insert_ne. Qed.

Lemma BaseEvent_of_base_fields b d : BaseEvent_of_doc (base_fields b d) = Ok b.
Proof.
  unfold BaseEvent_of_doc, base_fields.
  repeat (rewrite lookup_insert_eq || rewrite lookup_insert_ne by done).
  by destruct b.
Qed.

Lemma Service_roundtrip s : Service_of_value (doc_of_Service s) = Ok s.
Proof.
  unfold Service_of_value, doc_of_Service.
  repeat (rewrite lookup_insert_eq || rewrite lookup_insert_ne by done).
  by destruct s.
Qed.

Lemma Services_roundtrip (l : list Service) :
  to_slice "selected_services" Service_of_value (doc_of_Service <$> l) = Ok l.
Proof.
  induction l as [|s l IH]; [done|].
  rewrite fmap_cons. cbn [to_slice]. by rewrite Service_roundtrip, IH.
Qed.

Lemma OrderCreated_roundtrip ev : OrderCreated_of_doc (doc_of_OrderCreated ev) = Ok ev.
Proof.
  unfold OrderCreated_of_doc, doc_of_OrderCreated.
  rewrite BaseEvent_of_base_fields. simpl.
  rewrite !base_fields_other by done.
  repeat (rewrite lookup_insert_eq || rewrite lookup_insert_ne by done).
  simpl. rewrite Services_roundtrip. by destruct ev.
Qed.

Lemma DiscountRelease_roundtrip ev : DiscountRelease_of_doc (doc_of_DiscountRelease ev) = Ok ev.
Proof.
  unfold DiscountRelease_of_doc, doc_of_DiscountRelease.
  rewrite BaseEvent_of_base_fields. simpl.
  rewrite !base_fields_other by done.
  repeat (rewrite lookup_insert_eq || rewrite lookup_insert_ne by done).
  by destruct ev.
Qed.

Lemma DiscountReserved_roundtrip ev :
  DiscountReserved_of_doc (doc_of_DiscountReserved ev) = Ok ev.
Proof.
  unfold DiscountReserved_of_doc, doc_of_DiscountReserved.
  rewrite BaseEvent_of_base_fields. simpl.
  rewrite !base_fields_other by done.
  repeat (rewrite lookup_insert_eq || rewrite lookup_insert_ne by done).
  by destruct ev.
Qed.

Lemma DiscountRejected_roundtrip ev :
  DiscountRejected_of_doc (doc_of_DiscountRejected ev) = Ok ev.
Proof.
  unfold DiscountRejected_of_doc, doc_of_DiscountRejected.
  rewrite BaseEvent_of_base_fields. simpl.
  rewrite !base_fields_other by done.
  repeat (rewrite lookup_insert_eq || rewrite lookup_insert_ne by done).
  by destruct ev.
Qed.

(** How the decision documents answer the queries on [type] and
    [order_id]. *)
Lemma where_eq_type_base ty b d :
  where_eq "type" ty (base_fields b d) = String.eqb (Type_ b) ty.
Proof. unfold where_eq. by rewrite base_fields_type. Qed.

Lemma where_in_type_base l b d :
  where_in "type" l (base_fields b d) = existsb (String.eqb (Type_ b)) l.
Proof. unfold where_in. by rewrite base_fields_type. Qed.

Lemma decision_of_approved oid e event :
  decision_of oid (doc_of_DiscountReserved (approved e event))
  = String.eqb (oc_OrderID event) oid.
Proof.
  unfold decision_of, doc_of_DiscountReserved. rewrite where_in_type_base.
  unfold where_eq. rewrite base_fields_other by done.
  rewrite lookup_insert_eq. simpl. by rewrite andb_true_r.
Qed.

Lemma decision_of_rejected oid e event :
  decision_of oid (doc_of_DiscountRejected (rejected e event))
  = String.eqb (oc_OrderID event) oid.
Proof.
  unfold decision_of, doc_of_DiscountRejected. rewrite where_in_type_base.
  unfold where_eq. rewrite base_fields_other by done.
  rewrite lookup_insert_eq. simpl. by rewrite andb_true_r.
Qed.

Lemma of_type_app ty l1 l2 : of_type ty (l1 ++ l2) = of_type ty l1 ++ of_type ty l2.
Proof. apply filter_app. Qed.

Lemma of_type_reserved_approved e event :
  of_type EventTypeDiscountReserved [doc_of_DiscountReserved (approved e event)]
  = [doc_of_DiscountReserved (approved e event)].
Proof.
  unfold of_type. rewrite filter_cons_True; [done|].
  unfold doc_of_DiscountReserved. by rewrite where_eq_type_base.
Qed.

Lemma of_type_reserved_rejected e event :
  of_type EventTypeDiscountReserved [doc_of_DiscountRejected (rejected e event)] = [].
Proof.
  unfold of_type. rewrite filter_cons_False; [done|].
  unfold doc_of_DiscountRejected. rewrite where_eq_type_base. by vm_compute.
Qed.

Lemma of_type_rejected_rejected e event :
  of_type EventTypeDiscountRejected [doc_of_DiscountRejected (rejected e event)]
  = [doc_of_DiscountRejected (rejected e event)].
Proof.
  unfold of_type. rewrite filter_cons_True; [done|].
  unfold doc_of_DiscountRejected. by rewrite where_eq_type_base.
Qed.

(** ** The counter invariant *)

Section invariant.

Lemma within_quota_int64 db key : within_quota db → int64_range (reserved db key).
Proof.
  intros H. specialize (H key). pose proof QuotaLimit_bounds.
  unfold int64_range, min_int64, max_int64 in *. lia.
Qed.

(** Under the invariant the increment and the decrement do not wrap. *)
Lemma grant_commits_granted_db e event db :
  within_quota db → reserved db (today e) < QuotaLimit →
  {| events := events db ++ [doc_of_DiscountReserved (approved e event)];
     daily_quotas :=
       <[today e := {["count" := VInt (wrap64 (reserved db (today e) + 1))]}
                    ∪ default ∅ (daily_quotas db !! today e)]> (daily_quotas db) |}
  = granted_db e event db.
Proof.
  intros Hinv Hlt. unfold granted_db. rewrite wrap64_id; [done|].
  pose proof (Hinv (today e)). pose proof QuotaLimit_bounds.
  unfold int64_range, min_int64, max_int64 in *. lia.
Qed.

Lemma release_commits_released_db e db :
  within_quota db → 0 < reserved db (today e) →
  {| events := events db;
     daily_quotas :=
       <[today e := {["count" := VInt (wrap64 (reserved db (today e) - 1))]}
                    ∪ default ∅ (daily_quotas db !! today e)]> (daily_quotas db) |}
  = released_db e db.
Proof.
  intros Hinv Hlt. unfold released_db. rewrite wrap64_id; [done|].
  pose proof (Hinv (today e)). pose proof QuotaLimit_bounds.
  unfold int64_range, min_int64, max_int64 in *. lia.
Qed.

Lemma within_quota_granted_db e event db :
  within_quota db → reserved db (today e) < QuotaLimit →
  within_quota (granted_db e event db).
Proof.
  intros Hinv Hlt k. rewrite reserved_granted_db.
  pose proof (Hinv k). pose proof (Hinv (today e)). case_decide; lia.
Qed.

Lemma within_quota_released_db e db :
  within_quota db → 0 < reserved db (today e) → within_quota (released_db e db).
Proof.
  intros Hinv Hlt k. rewrite reserved_released_db.
  pose proof (Hinv k). pose proof (Hinv (today e)). case_decide; lia.
Qed.

Lemma within_quota_same_quotas db db' :
  daily_quotas db' = daily_quotas db → within_quota db → within_quota db'.
Proof. intros Heq Hinv k. by rewrite (reserved_same_quotas _ _ _ Heq). Qed.

Lemma within_quota_runQuotaTransaction e event db db' logs err :
  within_quota db → runQuotaTransaction e event db = Done (db', logs, err) →
  within_quota db'.
Proof.
  intros Hinv Hrun.
  destruct (runQuotaTransaction_cases e event db)
    as (db1 & logs1 & err1 & Hrun1 & Hcases).
  rewrite Hrun in Hrun1. injection Hrun1 as <- <- <-.
  destruct Hcases as [[-> _]|[(_ & Hlt & ->)|(_ & Hge & ->)]]; [done| |].
  - rewrite grant_commits_granted_db by done. by apply within_quota_granted_db.
  - by apply (within_quota_same_quotas db).
Qed.

Lemma within_quota_processOrderEvent e d db db' logs :
  within_quota db → processOrderEvent e d db = Done (db', logs) → within_quota db'.
Proof.
  intros Hinv Hrun.
  destruct (processOrderEvent_cases e d db) as (db1 & logs1 & Hrun1 & Hcases).
  rewrite Hrun in Hrun1. injection Hrun1 as <- <-.
  destruct Hcases as [->|(event & _ & _ & _ & [[Hlt ->]|[Hge ->]])]; [done| |].
  - rewrite grant_commits_granted_db by done. by apply within_quota_granted_db.
  - by apply (within_quota_same_quotas db).
Qed.

Lemma within_quota_processReleaseEvent e d db db' logs :
  within_quota db → processReleaseEvent e d db = Done (db', logs) → within_quota db'.
Proof.
  intros Hinv Hrun.
  destruct (processReleaseEvent_cases _ _ _ _ _ Hrun) as [->|[Hpos ->]]; [done|].
  rewrite release_commits_released_db by done. by apply within_quota_released_db.
Qed.

Lemma within_quota_commits db db' :
  within_quota db → commits db db' → within_quota db'.
Proof.
  intros Hinv Hstep.
  destruct Hstep as [e event db db' logs err Hrun
                    | e d db db' logs Hrun | e d db db' err Hadd].
  - by eapply within_quota_runQuotaTransaction.
  - destruct (on_added_cases _ _ _ _ _ Hrun) as [->|[Ho|Hr]]; [done| |].
    + by eapply within_quota_processOrderEvent.
    + by eapply within_quota_processReleaseEvent.
  - unfold Add in Hadd. case_decide; injection Hadd as <- _; [done|].
    by apply (within_quota_same_quotas db).
Qed.

Lemma within_quota_reachable db db' :
  within_quota db → rtc commits db db' → within_quota db'.
Proof. intros Hinv Hrtc. induction Hrtc; eauto using within_quota_commits. Qed.

(** The documents themselves stay well formed. *)
Lemma counters_wf_within_quota db : counters_wf db → within_quota db.
Proof.
  intros Hwf k. unfold reserved.
  destruct (daily_quotas db !! k) as [d|] eqn:Hd.
  - destruct (Hwf _ _ Hd) as (c & -> & ?). done.
  - pose proof QuotaLimit_bounds. lia.
Qed.

Lemma counters_wf_insert db evs key n :
  counters_wf db → 0 <= n <= QuotaLimit →
  counters_wf {| events := evs;
                 daily_quotas := <[key := {["count" := VInt n]}
                                          ∪ default ∅ (daily_quotas db !! key)]>
                                   (daily_quotas db) |}.
Proof.
  intros Hwf Hn k d. simpl. rewrite lookup_insert. case_decide.
  - intros [= <-]. exists n. by rewrite merge_count_lookup.
  - apply Hwf.
Qed.

Lemma counters_wf_commits db db' : counters_wf db → commits db db' → counters_wf db'.
Proof.
  intros Hwf Hstep. pose proof (counters_wf_within_quota _ Hwf) as Hinv.
  destruct Hstep as [e event db db' logs err Hrun
                    | e d db db' logs Hrun | e d db db' err Hadd].
  - destruct (runQuotaTransaction_cases e event db)
      as (db1 & logs1 & err1 & Hrun1 & Hcases).
    rewrite Hrun in Hrun1. injection Hrun1 as <- <- <-.
    destruct Hcases as [[-> _]|[(_ & Hlt & ->)|(_ & Hge & ->)]]; [done| |done].
    rewrite grant_commits_granted_db by done.
    apply counters_wf_insert; [done|]. pose proof (Hinv (today e)). lia.
  - destruct (on_added_cases _ _ _ _ _ Hrun) as [->|[Ho|Hr]]; [done| |].
    + destruct (processOrderEvent_cases e d db) as (db1 & logs1 & Hrun1 & Hcases).
      rewrite Ho in Hrun1. injection Hrun1 as <- <-.
      destruct Hcases as [->|(event & _ & _ & _ & [[Hlt ->]|[Hge ->]])]; [done| |done].
      rewrite grant_commits_granted_db by done.
      apply counters_wf_insert; [done|]. pose proof (Hinv (today e)). lia.
    + destruct (processReleaseEvent_cases _ _ _ _ _ Hr) as [->|[Hpos ->]]; [done|].
      rewrite release_commits_released_db by done.
      apply counters_wf_insert; [done|]. pose proof (Hinv (today e)). lia.
  - unfold Add in Hadd. case_decide; injection Hadd as <- _; done.
Qed.

Lemma counters_wf_reachable db db' :
  counters_wf db → rtc commits db db' → counters_wf db'.
Proof. intros Hwf Hrtc. induction Hrtc; eauto using counters_wf_commits. Qed.

End invariant.

(** ** Sequences of booking requests on one day *)

Lemma on_added_OrderCreated e d db :
  where_eq "type" EventTypeOrderCreated d = true →
  discount.on_added e d db = processOrderEvent e d db.
Proof.
  unfold discount.on_added, where_eq.
  destruct (as_string (d !! "type")) as [ty|]; [|done]. by intros ->.
Qed.

Lemma on_added_DiscountRelease e d db :
  where_eq "type" EventTypeDiscountRelease d = true →
  discount.on_added e d db = processReleaseEvent e d db.
Proof.
  unfold discount.on_added, where_eq.
  destruct (as_string (d !! "type")) as [ty|]; [|done].
  intros Hty. apply String.eqb_eq in Hty as ->. done.
Qed.

(** One request: the events it adds, and what it does to the counters. *)
Lemma processOrderEvent_produces e d db :
  within_quota db →
  ∃ db' logs produced,
    processOrderEvent e d db = Done (db', logs) ∧
    within_quota db' ∧
    events db' = events db ++ produced ∧
    (∀ k, reserved db' k
          = reserved db k
            + (if decide (today e = k)
               then Z.of_nat (length (of_type EventTypeDiscountReserved produced))
               else 0)).
Proof.
  intros Hinv.
  destruct (processOrderEvent_cases e d db) as (db' & logs & Hrun & Hcases).
  exists db', logs.
  destruct Hcases as [->|(event & _ & _ & _ & [[Hlt ->]|[Hge ->]])].
  - exists []. rewrite app_nil_r. split_and!; [done..|].
    intros k. simpl. case_decide; lia.
  - rewrite grant_commits_granted_db in Hrun |- * by done.
    exists [doc_of_DiscountReserved (approved e event)].
    split_and!; [done|by apply within_quota_granted_db|done|].
    intros k. rewrite reserved_granted_db, of_type_reserved_approved. simpl.
    case_decide; [subst k|]; lia.
  - exists [doc_of_DiscountRejected (rejected e event)].
    split_and!; [done|by apply (within_quota_same_quotas db)|done|].
    intros k. rewrite of_type_reserved_rejected. simpl.
    rewrite (reserved_same_quotas db) by done. case_decide; lia.
Qed.

Lemma run_requests_bounded day ds db :
  within_quota db →
  Forall (λ ed, today ed.1 = day ∧ where_eq "type" EventTypeOrderCreated ed.2 = true) ds →
  ∃ db' logs produced,
    discount.run ds db = Done (db', logs) ∧
    within_quota db' ∧
    events db' = events db ++ produced ∧
    reserved db' day
    = reserved db day + Z.of_nat (length (of_type EventTypeDiscountReserved produced)).
Proof.
  intros Hinv Hds. revert db Hinv.
  induction Hds as [|[e d] ds [Hday Hty] _ IH]; intros db Hinv.
  - exists db, [], []. rewrite app_nil_r. simpl. split_and!; [done..|lia].
  - simpl in *. rewrite on_added_OrderCreated by done.
    destruct (processOrderEvent_produces e d db Hinv)
      as (db1 & logs1 & p1 & -> & Hinv1 & Hev1 & Hres1).
    destruct (IH db1 Hinv1) as (db2 & logs2 & p2 & -> & Hinv2 & Hev2 & Hres2).
    exists db2, (logs1 ++ logs2), (p1 ++ p2).
    split_and!; [done|done| |].
    + by rewrite Hev2, Hev1, app_assoc.
    + rewrite Hres2, (Hres1 day), decide_True by done.
      rewrite of_type_app, length_app. lia.
Qed.

(** The idempotency check finds nothing when no decision is stored. *)
Lemma checkDecisionExists_fresh e db oid :
  failing e ≠ FailQuery →
  decisions_for oid (events db) = [] →
  checkDecisionExists e db oid = Ok false.
Proof.
  intros Hf Hnone. unfold checkDecisionExists. rewrite decide_False by done.
  fold (decisions_for oid (events db)). by rewrite Hnone.
Qed.

Lemma checkDecisionExists_found e db oid :
  failing e ≠ FailQuery →
  decisions_for oid (events db) ≠ [] →
  checkDecisionExists e db oid = Ok true.
Proof.
  intros Hf Hsome. unfold checkDecisionExists. rewrite decide_False by done.
  fold (decisions_for oid (events db)).
  by destruct (decisions_for oid (events db)).
Qed.

(** One eligible, not yet decided request, with the store healthy. *)
Lemma processOrderEvent_decides e event db :
  failing e = NoFault →
  IsR1Eligible event = true →
  decisions_for (oc_OrderID event) (events db) = [] →
  within_quota db →
  ∃ logs,
    processOrderEvent e (doc_of_OrderCreated event) db
    = Done (if reserved db (today e) <? QuotaLimit
            then granted_db e event db else denied_db e event db, logs).
Proof.
  intros Hf Hel Hnone Hinv. unfold processOrderEvent.
  rewrite OrderCreated_roundtrip, Hel. simpl.
  rewrite checkDecisionExists_fresh by (done || by rewrite Hf).
  destruct (Z.ltb_spec (reserved db (today e)) QuotaLimit) as [Hlt|Hge].
  - rewrite runQuotaTransaction_grant by (done || by apply within_quota_int64). eauto.
  - rewrite runQuotaTransaction_deny by done. eauto.
Qed.

Lemma decisions_for_app oid l1 l2 :
  decisions_for oid (l1 ++ l2) = decisions_for oid l1 ++ decisions_for oid l2.
Proof. apply filter_app. Qed.

Lemma decisions_for_decision_at oid c r :
  decisions_for oid [decision_at c r]
  = if String.eqb (oc_OrderID r.2) oid then [decision_at c r] else [].
Proof.
  unfold decisions_for.
  assert (decision_of oid (decision_at c r) = String.eqb (oc_OrderID r.2) oid) as Heq.
  { unfold decision_at. destruct (c <? QuotaLimit);
      [apply decision_of_approved|apply decision_of_rejected]. }
  destruct (String.eqb (oc_OrderID r.2) oid).
  - rewrite filter_cons_True; [done|]. by rewrite Heq.
  - rewrite filter_cons_False; [done|]. rewrite Heq. simpl. tauto.
Qed.

Lemma events_decided e event db :
  events (if reserved db (today e) <? QuotaLimit
          then granted_db e event db else denied_db e event db)
  = events db ++ [decision_at (reserved db (today e)) (e, event)].
Proof. unfold decision_at. by destruct (reserved db (today e) <? QuotaLimit). Qed.

Lemma reserved_decided e event db k :
  reserved (if reserved db (today e) <? QuotaLimit
            then granted_db e event db else denied_db e event db) k
  = if decide (today e = k)
    then (if reserved db (today e) <? QuotaLimit
          then reserved db (today e) + 1 else reserved db (today e))
    else reserved db k.
Proof.
  destruct (reserved db (today e) <? QuotaLimit).
  - apply reserved_granted_db.
  - rewrite (reserved_same_quotas db) by done. by case_decide; subst.
Qed.

Lemma within_quota_decided e event db :
  within_quota db →
  within_quota (if reserved db (today e) <? QuotaLimit
                then granted_db e event db else denied_db e event db).
Proof.
  intros Hinv. destruct (Z.ltb_spec (reserved db (today e)) QuotaLimit).
  - by apply within_quota_granted_db.
  - by apply (within_quota_same_quotas db).
Qed.

Lemma run_requests_exact day reqs db :
  within_quota db →
  Forall (λ r, failing r.1 = NoFault ∧ today r.1 = day ∧ IsR1Eligible r.2 = true
               ∧ Type_ (oc_base r.2) = EventTypeOrderCreated) reqs →
  NoDup ((λ r, oc_OrderID r.2) <$> reqs) →
  Forall (λ r, decisions_for (oc_OrderID r.2) (events db) = []) reqs →
  ∃ db' logs,
    discount.run (delivery <$> reqs) db = Done (db', logs) ∧
    events db'
    = events db ++ imap (λ i r, decision_at (reserved db day + Z.of_nat i) r) reqs ∧
    reserved db' day = Z.min QuotaLimit (reserved db day + Z.of_nat (length reqs)).
Proof.
  intros Hinv Hreqs. revert db Hinv.
  induction Hreqs as [|[e ev] reqs (Hf & Hday & Hel & Hty) _ IH];
    intros db Hinv Hdup Hfresh.
  - exists db, []. simpl. rewrite app_nil_r. pose proof (Hinv day). split_and!; [done..|lia].
  - simpl in Hf, Hday, Hel, Hty.
    rewrite fmap_cons in Hdup. apply NoDup_cons in Hdup as [Hnotin Hdup].
    apply Forall_cons in Hfresh as [Hfresh1 Hfresh].
    rewrite fmap_cons. cbn [discount.run delivery fst snd].
    rewrite on_added_OrderCreated.
    2:{ unfold doc_of_OrderCreated. by rewrite where_eq_type_base, Hty. }
    destruct (processOrderEvent_decides e ev db Hf Hel Hfresh1 Hinv) as [logs1 ->].
    set (db1 := if reserved db (today e) <? QuotaLimit
                then granted_db e ev db else denied_db e ev db).
    assert (within_quota db1) as Hinv1 by by apply within_quota_decided.
    assert (events db1 = events db ++ [decision_at (reserved db day) (e, ev)]) as Hev1.
    { unfold db1. by rewrite events_decided, Hday. }
    destruct (IH db1 Hinv1 Hdup) as (db2 & logs2 & -> & Hev2 & Hres2).
    { apply Forall_forall. intros r Hr.
      rewrite Hev1, decisions_for_app, decisions_for_decision_at.
      rewrite (proj1 (Forall_forall _ _) Hfresh r Hr). simpl.
      destruct (String.eqb_spec (oc_OrderID ev) (oc_OrderID r.2)) as [Heq|]; [|done].
      exfalso. apply Hnotin. simpl. rewrite Heq.
      by apply (list_elem_of_fmap_2 (λ r, oc_OrderID r.2)). }
    assert (reserved db1 day
            = if reserved db day <? QuotaLimit then reserved db day + 1 else reserved db day)
      as Hres1.
    { unfold db1. by rewrite reserved_decided, Hday, decide_True. }
    exists db2, (logs1 ++ logs2). split_and!; [done| |].
    + rewrite Hev2, Hev1, <- app_assoc. f_equal. simpl. f_equal; [f_equal; lia|].
      apply imap_ext. intros i r _. simpl. unfold decision_at.
      rewrite Hres1. pose proof (Hinv day).
      destruct (Z.ltb_spec (reserved db day) QuotaLimit).
      * by replace (reserved db day + 1 + Z.of_nat i)
          with (reserved db day + Z.of_nat (S i)) by lia.
      * rewrite !(proj2 (Z.ltb_ge _ _)) by lia. done.
    + rewrite Hres2, Hres1. pose proof (Hinv day). simpl length.
      destruct (Z.ltb_spec (reserved db day) QuotaLimit); lia.
Qed.

(** ** C1: the quota is never exceeded *)

Lemma within_quota_no_events : within_quota no_events.
Proof.
  intros k. unfold reserved. simpl. rewrite lookup_empty.
  pose proof QuotaLimit_bounds. lia.
Qed.

Lemma within_quota_taken n : 0 <= n <= QuotaLimit → within_quota (taken n).
Proof.
  intros Hn k. unfold reserved, taken. simpl.
  destruct (decide (k = "2026-02-01")) as [->|Hne].
  - rewrite lookup_singleton_eq. simpl. by rewrite lookup_singleton_eq.
  - rewrite lookup_singleton_ne by done. pose proof QuotaLimit_bounds. lia.
Qed.

Lemma runQuotaTransaction_at_limit e event db :
  QuotaLimit <= reserved db (today e) →
  ∃ db' logs err,
    runQuotaTransaction e event db = Done (db', logs, err) ∧
    daily_quotas db' = daily_quotas db ∧
    of_type EventTypeDiscountReserved (events db')
    = of_type EventTypeDiscountReserved (events db) ∧
    (failing e = NoFault →
     events db' = events db ++ [doc_of_DiscountRejected (rejected e event)]).
Proof.
  intros Hge.
  destruct (decide (failing e = NoFault)) as [Hf|Hf].
  - rewrite runQuotaTransaction_deny by done. do 3 eexists. split; [done|].
    simpl. rewrite of_type_app, of_type_reserved_rejected, app_nil_r. done.
  - destruct (runQuotaTransaction_cases e event db)
      as (db' & logs & err & Hrun & [[-> _] | [(_ & Hlt & _) | (_ & _ & ->)]]).
    + exists db, logs, err. split_and!; done.
    + lia.
    + exists (denied_db e event db), logs, err. split; [done|].
      simpl. by rewrite of_type_app, of_type_reserved_rejected, app_nil_r.
Qed.

(** C1.  From a database within the quota, every committed state keeps
    [0 <= reserved <= QuotaLimit] for every day; a reservation transaction
    that finds the counter at the limit leaves the counters as they are and
    adds no grant (a denial when the store is healthy); any sequence of
    booking requests handled on one day adds at most [QuotaLimit] minus the
    reservations already taken [DiscountReserved] events, whatever fails in
    between; and for eligible, distinct, undecided requests with the store
    healthy, the request that finds [c] reservations taken is granted when
    [c < QuotaLimit] and denied from then on. *)
Theorem quota_never_exceeded db :
  within_quota db →
  (∀ db', rtc commits db db' → ∀ key, 0 <= reserved db' key <= QuotaLimit) ∧
  (∀ e event,
     QuotaLimit <= reserved db (today e) →
     ∃ db' logs err,
       runQuotaTransaction e event db = Done (db', logs, err) ∧
       daily_quotas db' = daily_quotas db ∧
       of_type EventTypeDiscountReserved (events db')
       = of_type EventTypeDiscountReserved (events db) ∧
       (failing e = NoFault →
        events db' = events db ++ [doc_of_DiscountRejected (rejected e event)])) ∧
  (∀ day ds,
     Forall (λ ed, today ed.1 = day
                   ∧ where_eq "type" EventTypeOrderCreated ed.2 = true) ds →
     ∃ db' logs produced,
       discount.run ds db = Done (db', logs) ∧
       events db' = events db ++ produced ∧
       Z.of_nat (length (of_type EventTypeDiscountReserved produced))
       = reserved db' day - reserved db day ∧
       Z.of_nat (length (of_type EventTypeDiscountReserved produced))
       <= QuotaLimit - reserved db day) ∧
  (∀ day reqs,
     Forall (λ r, failing r.1 = NoFault ∧ today r.1 = day ∧ IsR1Eligible r.2 = true
                  ∧ Type_ (oc_base r.2) = EventTypeOrderCreated) reqs →
     NoDup ((λ r, oc_OrderID r.2) <$> reqs) →
     Forall (λ r, decisions_for (oc_OrderID r.2) (events db) = []) reqs →
     ∃ db' logs,
       discount.run (delivery <$> reqs) db = Done (db', logs) ∧
       events db'
       = events db
         ++ imap (λ i r,
                    if reserved db day + Z.of_nat i <? QuotaLimit
                    then doc_of_DiscountReserved (approved r.1 r.2)
                    else doc_of_DiscountRejected (rejected r.1 r.2)) reqs ∧
       reserved db' day = Z.min QuotaLimit (reserved db day + Z.of_nat (length reqs))).
Proof.
  intros Hinv. split_and!.
  - intros db' Hrtc. by apply (within_quota_reachable db).
  - intros e event. apply runQuotaTransaction_at_limit.
  - intros day ds Hds.
    destruct (run_requests_bounded day ds db Hinv Hds)
      as (db' & logs & produced & Hrun & Hinv' & Hev & Hres).
    exists db', logs, produced. pose proof (Hinv' day). split_and!; [done|done|lia|lia].
  - intros day reqs Hreqs Hdup Hfresh.
    apply (run_requests_exact day reqs db Hinv Hreqs Hdup Hfresh).
Qed.

(** The last free slot of the day: of three requests the first is granted
    and the two others are denied. *)
Example last_slot_run :
  match discount.run (delivery <$> [(feb1, booking "o1" true);
                                    (feb1, booking "o2" true);
                                    (feb1, booking "o3" true)]) (taken 99) with
  | Done (db', logs) =>
      (reserved db' "2026-02-01",
       as_string ∘ (.!! "type") <$> events db',
       msg <$> logs)
  | Panic _ => (-1, [], [])
  end
  = (100,
     [Some "DiscountReserved"; Some "DiscountRejected"; Some "DiscountRejected"],
     ["Processing R1-Eligible Order"; "R2 Quota Reserved";
      "Processing R1-Eligible Order"; "R2 Quota Exhausted";
      "Processing R1-Eligible Order"; "R2 Quota Exhausted"]).
Proof. vm_compute. reflexivity. Qed.

(** A whole day: of 102 requests the first hundred are granted, the last
    two denied. *)
Example full_day_run :
  match discount.run (delivery <$> bookings feb1 102) no_events with
  | Done (db', _) =>
      (reserved db' "2026-02-01",
       length (of_type EventTypeDiscountReserved (take 100 (events db'))),
       as_string ∘ (.!! "type") <$> drop 100 (events db'))
  | Panic _ => (-1, 0%nat, [])
  end
  = (100, 100%nat, [Some "DiscountRejected"; Some "DiscountRejected"]).
Proof. vm_compute. reflexivity. Qed.

Lemma quota_never_exceeded_witness :
  within_quota (taken 99) ∧
  ∃ db' logs,
    discount.run (delivery <$> [(feb1, booking "o1" true);
                                (feb1, booking "o2" true);
                                (feb1, booking "o3" true)]) (taken 99)
    = Done (db', logs) ∧
    events db'
    = [doc_of_DiscountReserved (approved feb1 (booking "o1" true));
       doc_of_DiscountRejected (rejected feb1 (booking "o2" true));
       doc_of_DiscountRejected (rejected feb1 (booking "o3" true))] ∧
    reserved db' "2026-02-01" = 100.
Proof.
  assert (within_quota (taken 99)) as Hinv.
  { apply within_quota_taken. vm_compute. split; discriminate. }
  split; [exact Hinv|].
  destruct (quota_never_exceeded (taken 99) Hinv) as (_ & _ & _ & Hexact).
  destruct (Hexact "2026-02-01" [(feb1, booking "o1" true);
                                 (feb1, booking "o2" true);
                                 (feb1, booking "o3" true)])
    as (db' & logs & Hrun & Hev & Hres).
  - repeat constructor.
  - apply (bool_decide_unpack _). vm_compute. exact I.
  - repeat constructor.
  - exists db', logs. split_and!; [exact Hrun| |].
    + rewrite Hev. reflexivity.
    + rewrite Hres. reflexivity.
Defined.

(** ** C2: the reservation transaction *)

Lemma quotas_granted_db_other e event db k :
  k ≠ today e → daily_quotas (granted_db e event db) !! k = daily_quotas db !! k.
Proof. intros Hk. unfold granted_db. simpl. by rewrite lookup_insert_ne. Qed.

Lemma approved_fields e event :
  let d := doc_of_DiscountReserved (approved e event) in
  d !! "type" = Some (VString "DiscountReserved") ∧
  d !! "order_id" = Some (VString (oc_OrderID event)) ∧
  d !! "trace_id" = Some (VString (TraceID (oc_base event))).
Proof.
  unfold doc_of_DiscountReserved, base_fields. simpl.
  repeat (rewrite lookup_insert_eq || rewrite lookup_insert_ne by done). done.
Qed.

Lemma rejected_fields e event :
  let d := doc_of_DiscountRejected (rejected e event) in
  d !! "type" = Some (VString "DiscountRejected") ∧
  d !! "order_id" = Some (VString (oc_OrderID event)) ∧
  d !! "trace_id" = Some (VString (TraceID (oc_base event))) ∧
  d !! "reason"
  = Some (VString "Daily discount quota reached. Please try again tomorrow.").
Proof.
  unfold doc_of_DiscountRejected, base_fields. simpl.
  repeat (rewrite lookup_insert_eq || rewrite lookup_insert_ne by done). done.
Qed.

(** C2.  With the store healthy, the reservation transaction for a booking
    request reads the counter of today's date key, a missing document
    counting as zero.  Below the limit it commits the counter plus one and
    one [DiscountReserved] event; otherwise it leaves every counter as it is
    and commits one [DiscountRejected] event whose reason is the fixed
    message.  Either event carries the order and trace identifiers of the
    request, and no other day's counter changes.  This is what the Ledger
    does for every eligible request delivered to it that has no decision
    yet. *)
Theorem reservation_transaction_spec e event db :
  failing e = NoFault →
  int64_range (reserved db (today e)) →
  ∃ db' logs d',
    runQuotaTransaction e event db = Done (db', logs, None) ∧
    events db' = events db ++ [d'] ∧
    d' !! "order_id" = Some (VString (oc_OrderID event)) ∧
    d' !! "trace_id" = Some (VString (TraceID (oc_base event))) ∧
    (∀ k, k ≠ today e → daily_quotas db' !! k = daily_quotas db !! k) ∧
    (daily_quotas db !! today e = None → reserved db (today e) = 0) ∧
    (if reserved db (today e) <? QuotaLimit
     then reserved db' (today e) = reserved db (today e) + 1 ∧
          d' !! "type" = Some (VString "DiscountReserved")
     else daily_quotas db' = daily_quotas db ∧
          d' !! "type" = Some (VString "DiscountRejected") ∧
          d' !! "reason"
          = Some (VString "Daily discount quota reached. Please try again tomorrow.")) ∧
    (∀ d, OrderCreated_of_doc d = Ok event →
          IsR1Eligible event = true →
          decisions_for (oc_OrderID event) (events db) = [] →
          ∃ logs', processOrderEvent e d db = Done (db', logs')).
Proof.
  intros Hf Hrange.
  assert (∀ db' logs, runQuotaTransaction e event db = Done (db', logs, None) →
          ∀ d, OrderCreated_of_doc d = Ok event →
               IsR1Eligible event = true →
               decisions_for (oc_OrderID event) (events db) = [] →
               ∃ logs', processOrderEvent e d db = Done (db', logs')) as Hlift.
  { intros db' logs Hrun d Hd Hel Hnone. unfold processOrderEvent.
    rewrite Hd, Hel. simpl.
    rewrite checkDecisionExists_fresh by (done || by rewrite Hf).
    rewrite Hrun. eauto. }
  destruct (Z.ltb_spec (reserved db (today e)) QuotaLimit) as [Hlt|Hge].
  - pose proof (runQuotaTransaction_grant e event db Hf Hrange Hlt) as Hrun.
    destruct (approved_fields e event) as (Hty & Hoid & Htr).
    exists (granted_db e event db), [Log Info "R2 Quota Reserved"],
      (doc_of_DiscountReserved (approved e event)).
    split_and!; try done.
    + intros k Hk. by apply quotas_granted_db_other.
    + apply reserved_absent.
    + by rewrite reserved_granted_db, decide_True.
    + by apply (Hlift _ _ Hrun).
  - pose proof (runQuotaTransaction_deny e event db Hf Hge) as Hrun.
    destruct (rejected_fields e event) as (Hty & Hoid & Htr & Hreason).
    exists (denied_db e event db), [Log Info "R2 Quota Exhausted"],
      (doc_of_DiscountRejected (rejected e event)).
    split_and!; try done.
    + apply reserved_absent.
    + by apply (Hlift _ _ Hrun).
Qed.

Lemma reservation_transaction_spec_witness :
  failing feb1 = NoFault ∧
  int64_range (reserved (taken 100) (today feb1)) ∧
  ∃ db' logs d',
    runQuotaTransaction feb1 (booking "o1" true) (taken 100) = Done (db', logs, None) ∧
    events db' = [d'] ∧
    daily_quotas db' = daily_quotas (taken 100) ∧
    d' !! "type" = Some (VString "DiscountRejected") ∧
    d' !! "order_id" = Some (VString "o1") ∧
    d' !! "reason"
    = Some (VString "Daily discount quota reached. Please try again tomorrow.").
Proof.
  assert (int64_range (reserved (taken 100) (today feb1))) as Hrange.
  { vm_compute. split; discriminate. }
  split_and!; [reflexivity|exact Hrange|].
  destruct (reservation_transaction_spec feb1 (booking "o1" true) (taken 100)
              eq_refl Hrange)
    as (db' & logs & d' & Hrun & Hev & Hoid & _ & _ & _ & Hcase & _).
  change (reserved (taken 100) (today feb1) <? QuotaLimit) with false in Hcase.
  destruct Hcase as (Hq & Hty & Hreason).
  exists db', logs, d'. split_and!; done.
Defined.

(** A first request of a day finds no counter document and is granted. *)
Example first_request_of_day :
  match runQuotaTransaction feb1 (booking "o1" true) no_events with
  | Done (db', _, None) =>
      (daily_quotas db' !! "2026-02-01", as_string ∘ (.!! "type") <$> events db')
  | _ => (None, [])
  end
  = (Some {["count" := VInt 1]}, [Some "DiscountReserved"]).
Proof. vm_compute. reflexivity. Qed.

(** ** C3: a grant followed by its release *)

Lemma quotas_granted_db_today e event db :
  daily_quotas (granted_db e event db) !! today e
  = Some ({["count" := VInt (reserved db (today e) + 1)]}
          ∪ default ∅ (daily_quotas db !! today e)).
Proof. unfold granted_db. simpl. apply lookup_insert_eq. Qed.

(** C3.  From a database within the quota, with the store healthy: a
    request granted on a day, followed by the release event of the same
    order handled on the same day, leaves the counter of that day (and of
    every other day) where it was before the grant; and no committed state
    ever has a negative counter. *)
Theorem grant_then_release_net_zero e1 e2 event d rel db :
  within_quota db →
  failing e1 = NoFault →
  failing e2 = NoFault →
  today e2 = today e1 →
  reserved db (today e1) < QuotaLimit →
  DiscountRelease_of_doc d = Ok rel →
  rl_OrderID rel = oc_OrderID event →
  ∃ db1 db2 logs1 logs2,
    runQuotaTransaction e1 event db = Done (db1, logs1, None) ∧
    events db1 = events db ++ [doc_of_DiscountReserved (approved e1 event)] ∧
    reserved db1 (today e1) = reserved db (today e1) + 1 ∧
    processReleaseEvent e2 d db1 = Done (db2, logs2) ∧
    (∀ k, reserved db2 k = reserved db k) ∧
    (∀ db', rtc commits db db' → ∀ k, 0 <= reserved db' k).
Proof.
  intros Hinv Hf1 Hf2 Hday Hlt Hd _.
  pose proof (Hinv (today e1)) as Hc. pose proof QuotaLimit_bounds as HL.
  exists (granted_db e1 event db), (released_db e2 (granted_db e1 event db)).
  do 2 eexists. split_and!.
  - apply runQuotaTransaction_grant; [done|by apply within_quota_int64|done].
  - done.
  - by rewrite reserved_granted_db, decide_True.
  - eapply processReleaseEvent_decrement; [done|done| | |].
    + rewrite Hday. apply quotas_granted_db_today.
    + apply merge_count_lookup.
    + unfold max_int64 in *. lia.
  - intros k. rewrite reserved_released_db, Hday, !reserved_granted_db.
    repeat case_decide; subst; (lia || done).
  - intros db' Hrtc k. by apply (within_quota_reachable db).
Qed.

Lemma grant_then_release_net_zero_witness :
  within_quota (taken 41) ∧
  ∃ db1 db2 logs1 logs2,
    runQuotaTransaction feb1 (booking "o1" true) (taken 41) = Done (db1, logs1, None) ∧
    reserved db1 "2026-02-01" = 42 ∧
    processReleaseEvent feb1_late (doc_of_DiscountRelease (release_of "o1")) db1
    = Done (db2, logs2) ∧
    reserved db2 "2026-02-01" = 41.
Proof.
  assert (within_quota (taken 41)) as Hinv.
  { apply within_quota_taken. vm_compute. split; discriminate. }
  split; [exact Hinv|].
  destruct (grant_then_release_net_zero feb1 feb1_late (booking "o1" true)
              (doc_of_DiscountRelease (release_of "o1")) (release_of "o1") (taken 41))
    as (db1 & db2 & logs1 & logs2 & Hrun1 & _ & Hres1 & Hrun2 & Hres2 & _).
  - exact Hinv.
  - reflexivity.
  - reflexivity.
  - vm_compute. reflexivity.
  - vm_compute. reflexivity.
  - vm_compute. reflexivity.
  - reflexivity.
  - exists db1, db2, logs1, logs2. split_and!; [exact Hrun1| |exact Hrun2|].
    + exact Hres1.
    + exact (Hres2 "2026-02-01").
Defined.

(** ** C4 and C10: the release handler *)





(** The release uses the day on which it runs: a reservation granted at
    23:59 and released at 00:01 stays on the counter of the first day. *)
Example release_after_midnight :
  match runQuotaTransaction feb1_late (booking "o1" true) no_events with
  | Done (db1, _, _) =>
      match processReleaseEvent feb2_early (doc_of_DiscountRelease (release_of "o1")) db1 with
      | Done (db2, logs) =>
          (today feb1_late, reserved db1 (today feb1_late),
           today feb2_early, reserved db2 (today feb1_late), msg <$> logs)
      | Panic _ => ("", 0, "", 0, [])
      end
  | Panic _ => ("", 0, "", 0, [])
  end
  = ("2026-02-01", 1, "2026-02-02", 1,
     ["Quota document not found for today, nothing to release"]).
Proof. vm_compute. reflexivity. Qed.

(** C10.  With the store healthy, the release handler takes one off a
    positive counter of the current day for any release event it can
    parse, and the outcome is the same whatever the event log holds: no
    grant for the order of the event is looked for. *)
Theorem release_decrements_without_grant_check e d rel db qd c :
  DiscountRelease_of_doc d = Ok rel →
  failing e = NoFault →
  daily_quotas db !! today e = Some qd →
  qd !! "count" = Some (VInt c) →
  0 < c <= max_int64 →
  ∃ quotas',
    quotas' !! today e = Some ({["count" := VInt (c - 1)]} ∪ qd) ∧
    (∀ k, k ≠ today e → quotas' !! k = daily_quotas db !! k) ∧
    ∀ evs,
      processReleaseEvent e d {| events := evs; daily_quotas := daily_quotas db |}
      = Done ({| events := evs; daily_quotas := quotas' |},
              [Log Info "Quota Compensation Executed"]).
Proof.
  intros Hd Hf Hq Hc Hpos.
  exists (<[today e := {["count" := VInt (c - 1)]} ∪ qd]> (daily_quotas db)).
  split_and!.
  - apply lookup_insert_eq.
  - intros k Hk. by rewrite lookup_insert_ne.
  - intros evs.
    rewrite (processReleaseEvent_decrement e d rel _ qd c) by done.
    unfold released_db. simpl.
    rewrite (reserved_lookup _ (today e) qd c) by done. by rewrite Hq.
Qed.

Lemma release_decrements_without_grant_check_witness :
  ∃ quotas',
    quotas' !! "2026-02-01" = Some {["count" := VInt 4]} ∧
    processReleaseEvent feb1 (doc_of_DiscountRelease (release_of "o2"))
      {| events := [doc_of_DiscountRejected (rejected feb1 (booking "o2" true))];
         daily_quotas := daily_quotas (taken 5) |}
    = Done ({| events := [doc_of_DiscountRejected (rejected feb1 (booking "o2" true))];
               daily_quotas := quotas' |},
            [Log Info "Quota Compensation Executed"]).
Proof.
  destruct (release_decrements_without_grant_check feb1
              (doc_of_DiscountRelease (release_of "o2")) (release_of "o2")
              (taken 5) {["count" := VInt 5]} 5)
    as (quotas' & Htoday & _ & Hrun).
  - apply DiscountRelease_roundtrip.
  - reflexivity.
  - vm_compute. reflexivity.
  - reflexivity.
  - vm_compute. split; [reflexivity|discriminate].
  - exists quotas'. split.
    + change "2026-02-01" with (today feb1). rewrite Htoday. vm_compute. reflexivity.
    + apply Hrun.
Defined.

(** ** C5: replaying a booking request *)

Lemma decision_of_decision_at c r :
  decision_of (oc_OrderID r.2) (decision_at c r) = true.
Proof.
  unfold decision_at. destruct (c <? QuotaLimit).
  - rewrite decision_of_approved. apply String.eqb_refl.
  - rewrite decision_of_rejected. apply String.eqb_refl.
Qed.

Lemma runQuotaTransaction_healthy e event db :
  failing e = NoFault →
  ∃ db' logs,
    runQuotaTransaction e event db = Done (db', logs, None) ∧
    events db' = events db ++ [decision_at (reserved db (today e)) (e, event)].
Proof.
  intros Hf. unfold runQuotaTransaction, RunTransaction, quotaTx, decision_at.
  rewrite quotaTx_read by (by rewrite Hf).
  destruct (reserved db (today e) <? QuotaLimit);
    unfold tx_Set; rewrite !decide_False by (by rewrite Hf); simpl; eauto.
Qed.

(** What one run of the handler can add to the log. *)
Lemma processOrderEvent_events e d db :
  ∃ db' logs,
    processOrderEvent e d db = Done (db', logs) ∧
    (db' = db ∨
     ∃ event dd,
       OrderCreated_of_doc d = Ok event ∧
       decisions_for (oc_OrderID event) (events db) = [] ∧
       events db' = events db ++ [dd] ∧
       decision_of (oc_OrderID event) dd = true).
Proof.
  destruct (processOrderEvent_cases e d db) as (db' & logs & Hrun & Hcases).
  exists db', logs. split; [done|].
  destruct Hcases as [->|(event & Hd & _ & Hnone & [[_ ->]|[_ ->]])]; [by left|..];
    right; exists event; eexists; (split_and!; [done|done|done|]).
  - rewrite decision_of_approved. apply String.eqb_refl.
  - rewrite decision_of_rejected. apply String.eqb_refl.
Qed.

Lemma decisions_for_snoc oid evs dd :
  decision_of oid dd = true →
  decisions_for oid (evs ++ [dd]) = decisions_for oid evs ++ [dd].
Proof.
  intros Hdd. rewrite decisions_for_app. f_equal.
  unfold decisions_for. rewrite filter_cons_True; [done|]. by rewrite Hdd.
Qed.

(** C5.  Take an eligible booking request with no decision in the log.
    Handling its event twice, whatever fails in the store, leaves at most
    one decision event for its order; when the store is healthy the first
    time, the first handling adds exactly one decision, the idempotency
    check of the second finds it, and the second handling changes
    nothing. *)
Theorem replay_produces_one_decision e1 e2 d event db :
  OrderCreated_of_doc d = Ok event →
  IsR1Eligible event = true →
  decisions_for (oc_OrderID event) (events db) = [] →
  ∃ db1 db2 logs1 logs2,
    processOrderEvent e1 d db = Done (db1, logs1) ∧
    processOrderEvent e2 d db1 = Done (db2, logs2) ∧
    (length (decisions_for (oc_OrderID event) (events db2)) ≤ 1)%nat ∧
    (failing e1 = NoFault →
     length (decisions_for (oc_OrderID event) (events db1)) = 1%nat ∧
     (failing e2 ≠ FailQuery →
      checkDecisionExists e2 db1 (oc_OrderID event) = Ok true) ∧
     db2 = db1).
Proof.
  intros Hd Hel Hnone.
  destruct (processOrderEvent_events e1 d db) as (db1 & logs1 & Hrun1 & Hcase1).
  destruct (processOrderEvent_events e2 d db1) as (db2 & logs2 & Hrun2 & Hcase2).
  exists db1, db2, logs1, logs2. split; [done|]. split; [done|].
  assert (decisions_for (oc_OrderID event) (events db1) ≠ [] → db2 = db1) as Hskip.
  { intros Hsome. destruct Hcase2 as [->|(ev' & dd & Hd' & Hnone' & _)]; [done|].
    rewrite Hd in Hd'. injection Hd' as <-. done. }
  split.
  - destruct Hcase1 as [->|(ev1 & dd1 & Hd1 & _ & Hev1 & Hdd1)].
    + destruct Hcase2 as [->|(ev2 & dd2 & Hd2 & _ & Hev2 & Hdd2)].
      * rewrite Hnone. simpl. lia.
      * rewrite Hd in Hd2. injection Hd2 as <-.
        rewrite Hev2, decisions_for_snoc, Hnone by done. simpl. lia.
    + rewrite Hd in Hd1. injection Hd1 as <-.
      assert (decisions_for (oc_OrderID event) (events db1) = [dd1]) as Hone.
      { by rewrite Hev1, decisions_for_snoc, Hnone. }
      rewrite Hskip, Hone; [simpl; lia|]. by rewrite Hone.
  - intros Hf1.
    destruct (runQuotaTransaction_healthy e1 event db Hf1) as (dbh & logsh & Hrunh & Hevh).
    unfold processOrderEvent in Hrun1. rewrite Hd, Hel in Hrun1. simpl in Hrun1.
    rewrite checkDecisionExists_fresh in Hrun1 by (done || by rewrite Hf1).
    rewrite Hrunh in Hrun1. injection Hrun1 as <- _.
    assert (decisions_for (oc_OrderID event) (events dbh)
            = [decision_at (reserved db (today e1)) (e1, event)]) as Hone.
    { rewrite Hevh, decisions_for_snoc, Hnone; [done|].
      apply (decision_of_decision_at _ (e1, event)). }
    split_and!.
    + by rewrite Hone.
    + intros Hf2. apply checkDecisionExists_found; [done|]. by rewrite Hone.
    + apply Hskip. by rewrite Hone.
Qed.

Lemma replay_produces_one_decision_witness :
  ∃ db1 logs1 logs2,
    processOrderEvent feb1 (doc_of_OrderCreated (booking "o1" true)) no_events
    = Done (db1, logs1) ∧
    processOrderEvent feb1_late (doc_of_OrderCreated (booking "o1" true)) db1
    = Done (db1, logs2) ∧
    length (decisions_for "o1" (events db1)) = 1%nat.
Proof.
  destruct (replay_produces_one_decision feb1 feb1_late
              (doc_of_OrderCreated (booking "o1" true)) (booking "o1" true) no_events)
    as (db1 & db2 & logs1 & logs2 & Hrun1 & Hrun2 & _ & Hhealthy).
  - apply OrderCreated_roundtrip.
  - reflexivity.
  - reflexivity.
  - destruct (Hhealthy eq_refl) as (Hone & _ & Heq).
    exists db1, logs1, logs2. split_and!; [exact Hrun1| |exact Hone].
    rewrite <- Heq at 2. exact Hrun2.
Defined.

(** The second delivery of a request is answered by the idempotency
    check. *)
Example replay_run :
  match discount.run (delivery <$> [(feb1, booking "o1" true);
                                    (feb1_late, booking "o1" true)]) no_events with
  | Done (db', logs) =>
      (reserved db' "2026-02-01", length (events db'), msg <$> logs)
  | Panic _ => (-1, 0%nat, [])
  end
  = (1, 1%nat,
     ["Processing R1-Eligible Order"; "R2 Quota Reserved";
      "Processing R1-Eligible Order"; "Decision Already Exists"]).
Proof. vm_compute. reflexivity. Qed.

(** ** C6: requests that are not eligible *)

(** C6.  A POST request whose body decodes and that is not eligible is
    answered at once: the database and the registry of pending requests
    are left as they are (no event is added), and the answer is FAILED
    with status 500 when the failure simulation is asked for, CONFIRMED
    with status 200 and the final price of the request, no discount
    applied, otherwise.  The Ledger, given a booking event whose
    eligibility flag is false, leaves the database as it is, whatever the
    clock and the health of the store. *)
Theorem non_eligible_touches_nothing :
  (∀ e r req orderID traceID db responseMap,
     order.Method r = "POST" →
     order.Decoded r = Some req →
     order.IsR1Eligible req = false →
     ∃ logs,
       order.handleOrder_begin e r orderID traceID db responseMap
       = (db, responseMap, logs,
          order.Answered
            (if order.SimulateFailure req
             then {| order.StatusCode := 500;
                     order.Body := order.JSON
                       {| order.OrderID := orderID;
                          order.Status := "FAILED";
                          order.Message := "Payment processing failed (simulated)." |} |}
             else {| order.StatusCode := 200;
                     order.Body := order.JSON
                       {| order.OrderID := orderID;
                          order.Status := "CONFIRMED";
                          order.Message := "Booking confirmed! Total: ₹"
                                           +:+ gotime.sprintf_2f (order.FinalPrice req)
                                           +:+ " (No discount applied)" |} |}))) ∧
  (∀ e d event db,
     OrderCreated_of_doc d = Ok event →
     IsR1Eligible event = false →
     processOrderEvent e d db = Done (db, [Log Info "Skipping Non-R1-Eligible Order"]) ∧
     (where_eq "type" EventTypeOrderCreated d = true →
      discount.on_added e d db = Done (db, [Log Info "Skipping Non-R1-Eligible Order"]))).
Proof.
  split.
  - intros e r req orderID traceID db responseMap Hm Hdec Hel.
    unfold order.handleOrder_begin. rewrite Hm, Hdec, Hel. simpl.
    destruct (order.SimulateFailure req); eauto.
  - intros e d event db Hd Hel.
    assert (processOrderEvent e d db
            = Done (db, [Log Info "Skipping Non-R1-Eligible Order"])) as Hskip.
    { unfold processOrderEvent. by rewrite Hd, Hel. }
    split; [done|]. intros Hty. by rewrite on_added_OrderCreated.
Qed.

Lemma non_eligible_touches_nothing_witness :
  (∃ logs,
     order.handleOrder_begin feb1 (post (request false false)) "o9" "t9" (taken 7) ∅
     = (taken 7, ∅, logs,
        order.Answered
          {| order.StatusCode := 200;
             order.Body := order.JSON
               {| order.OrderID := "o9";
                  order.Status := "CONFIRMED";
                  order.Message := "Booking confirmed! Total: ₹1300.00 (No discount applied)" |} |})) ∧
  discount.on_added feb1 (doc_of_OrderCreated (booking "o9" false)) (taken 7)
  = Done (taken 7, [Log Info "Skipping Non-R1-Eligible Order"]).
Proof.
  destruct non_eligible_touches_nothing as [Hcoord Hledger]. split.
  - destruct (Hcoord feb1 (post (request false false)) (request false false)
                "o9" "t9" (taken 7) ∅) as [logs Hrun]; [reflexivity..|].
    exists logs. exact Hrun.
  - destruct (Hledger feb1 (doc_of_OrderCreated (booking "o9" false))
                (booking "o9" false) (taken 7)) as [_ Hrun].
    + apply OrderCreated_roundtrip.
    + reflexivity.
    + apply Hrun. vm_compute. reflexivity.
Defined.

(** ** C7 and C8: the decision reaches the waiting handler *)

Lemma release_fields e orderID traceID :
  let c := doc_of_DiscountRelease
             {| rl_base := {| TraceID := traceID;
                              Type_ := EventTypeDiscountRelease;
                              Timestamp := now e |};
                rl_OrderID := orderID;
                rl_Reason := "Payment Processing Failed (Simulated Failure)" |} in
  c !! "type" = Some (VString "DiscountRelease") ∧
  c !! "order_id" = Some (VString orderID) ∧
  c !! "trace_id" = Some (VString traceID).
Proof.
  unfold doc_of_DiscountRelease, base_fields. simpl.
  repeat (rewrite lookup_insert_eq || rewrite lookup_insert_ne by done). done.
Qed.

(** C7.  The handler waits under [orderID] and a [DiscountReserved]
    decision sits in its channel.  The [select] takes it, and the handler
    leaves the registry.  With the failure simulation asked for, it adds to
    the log (when the store accepts the write) one [DiscountRelease] event
    for [orderID] with the trace identifier of the request, which the
    Ledger's release handler parses, and answers FAILED, status 500, with
    the message that the quota has been released.  Without it, it writes
    nothing and answers CONFIRMED, status 200. *)
Theorem granted_decision_handling e req orderID traceID d db responseMap :
  responseMap !! orderID = Some (Some (order.Reserved d)) →
  order.select orderID responseMap false = Some (order.Received (order.Reserved d)) ∧
  ∃ db' logs resp,
    order.handleOrder_resume e req orderID traceID
      (order.Received (order.Reserved d)) db responseMap
    = (db', delete orderID responseMap, logs, resp) ∧
    daily_quotas db' = daily_quotas db ∧
    if order.SimulateFailure req
    then
      resp = {| order.StatusCode := 500;
                order.Body := order.JSON
                  {| order.OrderID := orderID;
                     order.Status := "FAILED";
                     order.Message :=
                       "Payment processing failed. Discount quota has been released." |} |} ∧
      (failing e ≠ FailAdd →
       ∃ c rel,
         events db' = events db ++ [c] ∧
         c !! "type" = Some (VString "DiscountRelease") ∧
         c !! "order_id" = Some (VString orderID) ∧
         c !! "trace_id" = Some (VString traceID) ∧
         DiscountRelease_of_doc c = Ok rel ∧ rl_OrderID rel = orderID)
    else
      db' = db ∧
      resp = {| order.StatusCode := 200;
                order.Body := order.JSON
                  {| order.OrderID := orderID;
                     order.Status := "CONFIRMED";
                     order.Message := "Booking confirmed! Final price: ₹"
                                      +:+ gotime.sprintf_2f (order.FinalPrice req)
                                      +:+ " (12% discount applied)" |} |}.
Proof.
  intros Hpending. split.
  { unfold order.select. by rewrite Hpending. }
  unfold order.handleOrder_resume.
  destruct (order.SimulateFailure req).
  - unfold Add. destruct (decide (failing e = FailAdd)) as [Hf|Hf].
    + do 3 eexists. split; [done|]. split; [done|]. split; [done|]. done.
    + do 3 eexists. split; [done|]. split; [done|]. split; [done|].
      intros _. destruct (release_fields e orderID traceID) as (Hty & Hoid & Htr).
      do 2 eexists. split_and!; [done|exact Hty|exact Hoid|exact Htr| |].
      * apply DiscountRelease_roundtrip.
      * done.
  - do 3 eexists. split; [done|]. done.
Qed.

Lemma granted_decision_handling_witness :
  let d := approved feb1 (booking "o1" true) in
  let responseMap : order.registry := {["o1" := Some (order.Reserved d)]} in
  responseMap !! "o1" = Some (Some (order.Reserved d)) ∧
  ∃ db' logs,
    order.handleOrder_resume feb1 (request true true) "o1" "trace-o1"
      (order.Received (order.Reserved d)) (taken 1) responseMap
    = (db', delete "o1" responseMap, logs,
       {| order.StatusCode := 500;
          order.Body := order.JSON
            {| order.OrderID := "o1";
               order.Status := "FAILED";
               order.Message :=
                 "Payment processing failed. Discount quota has been released." |} |}) ∧
    ∃ c, events db' = [c] ∧ c !! "type" = Some (VString "DiscountRelease")
         ∧ c !! "order_id" = Some (VString "o1").
Proof.
  intros d responseMap.
  assert (responseMap !! "o1" = Some (Some (order.Reserved d))) as Hpending.
  { vm_compute. reflexivity. }
  split; [exact Hpending|].
  destruct (granted_decision_handling feb1 (request true true) "o1" "trace-o1" d
              (taken 1) responseMap Hpending)
    as (_ & db' & logs & resp & Hrun & _ & Hcase).
  change (order.SimulateFailure (request true true)) with true in Hcase.
  destruct Hcase as [-> Hadd].
  destruct Hadd as (c & rel & Hev & Hty & Hoid & _); [discriminate|].
  exists db', logs. split; [exact Hrun|].
  exists c. split_and!; [exact Hev|exact Hty|exact Hoid].
Defined.

(** C8.  A [DiscountRejected] document that [DataTo] accepts (the
    subscription delivers it as soon as it has a [timestamp]) is delivered
    to the listener while the handler waits under its order with an empty
    channel: the listener puts the decoded event into the channel, the
    [select] takes it, and the handler answers REJECTED, status 429, with
    the [reason] field of the document as the message, character for
    character; nothing is written to the database. *)
Theorem denial_reason_verbatim e req orderID traceID visited doc d reason db responseMap :
  responseMap !! orderID = Some None →
  doc !! "type" = Some (VString EventTypeDiscountRejected) →
  doc !! "order_id" = Some (VString orderID) →
  doc !! "reason" = Some (VString reason) →
  DiscountRejected_of_doc doc = Ok d →
  let waiting := <[orderID := Some (order.Rejected d)]> responseMap in
  order.subscribed doc = order_by "timestamp" doc ∧
  order.on_added visited doc responseMap = Done (order.Sent waiting) ∧
  order.select orderID waiting false = Some (order.Received (order.Rejected d)) ∧
  order.handleOrder_resume e req orderID traceID
    (order.Received (order.Rejected d)) db waiting
  = (db, delete orderID responseMap, [Log Info "Discount Rejected"],
     {| order.StatusCode := 429;
        order.Body := order.JSON {| order.OrderID := orderID;
                                    order.Status := "REJECTED";
                                    order.Message := reason |} |}).
Proof.
  intros Hpending Hty Hoid Hreason Hd waiting.
  assert (rj_Reason d = reason) as Hverbatim.
  { unfold DiscountRejected_of_doc in Hd. rewrite Hreason in Hd.
    destruct (BaseEvent_of_doc doc); simpl in Hd; [|done].
    destruct (to_string "order_id" (doc !! "order_id")); simpl in Hd; [|done].
    destruct (to_string "status" (doc !! "status")); simpl in Hd; [|done].
    by injection Hd as <-. }
  split_and!.
  - unfold order.subscribed, where_in. by rewrite Hty.
  - unfold order.on_added. rewrite Hty, Hoid. simpl. rewrite Hpending.
    unfold order.DataTo_unchecked. by rewrite Hd.
  - unfold order.select, waiting. by rewrite lookup_insert_eq.
  - unfold order.handleOrder_resume, waiting.
    by rewrite delete_insert_eq, Hverbatim.
Qed.

Lemma denial_reason_verbatim_witness :
  let d := rejected feb1 (booking "o2" true) in
  ∃ waiting,
    order.on_added (λ _, true) (doc_of_DiscountRejected d) {["o2" := None]}
    = Done (order.Sent waiting) ∧
    order.handleOrder_resume feb1 (request true false) "o2" "trace-o2"
      (order.Received (order.Rejected d)) (taken 100) waiting
    = (taken 100, ∅, [Log Info "Discount Rejected"],
       {| order.StatusCode := 429;
          order.Body := order.JSON
            {| order.OrderID := "o2";
               order.Status := "REJECTED";
               order.Message :=
                 "Daily discount quota reached. Please try again tomorrow." |} |}).
Proof.
  intros d.
  destruct (denial_reason_verbatim feb1 (request true false) "o2" "trace-o2"
              (λ _, true) (doc_of_DiscountRejected d) d
              "Daily discount quota reached. Please try again tomorrow."
              (taken 100) {["o2" := None]})
    as (_ & Hsent & _ & Hresume).
  - vm_compute. reflexivity.
  - vm_compute. reflexivity.
  - vm_compute. reflexivity.
  - vm_compute. reflexivity.
  - apply DiscountRejected_roundtrip.
  - eexists. split; [exact Hsent|].
    rewrite Hresume. vm_compute. reflexivity.
Defined.

(** ** C9: malformed events *)

(** The Ledger logs and drops what it cannot parse, and no event document
    that its subscription can deliver makes it panic while the counter
    documents are the ones it wrote itself. *)
Lemma ledger_drops_malformed e d db :
  discount.subscribed d = true →
  (∀ ev, OrderCreated_of_doc d ≠ Ok ev) →
  (∀ rel, DiscountRelease_of_doc d ≠ Ok rel) →
  discount.on_added e d db = Done (db, [Log Error "Failed to parse event"])
  ∨ discount.on_added e d db = Done (db, [Log Error "Failed to parse release event"]).
Proof.
  intros Hsub Hno Hnr.
  destruct (on_added_subscribed e d db Hsub) as [[-> _]|[-> _]].
  - left. unfold processOrderEvent.
    destruct (OrderCreated_of_doc d) as [ev|]; [by destruct (Hno ev)|done].
  - right. unfold processReleaseEvent.
    destruct (DiscountRelease_of_doc d) as [rel|]; [by destruct (Hnr rel)|done].
Qed.

Lemma ledger_survives_events e d db :
  counters_wf db →
  discount.subscribed d = true →
  ∃ db' logs, discount.on_added e d db = Done (db', logs).
Proof.
  intros Hwf Hsub.
  destruct (on_added_subscribed e d db Hsub) as [[-> _]|[-> _]].
  - destruct (processOrderEvent_cases e d db) as (db' & logs & Hrun & _). eauto.
  - by apply processReleaseEvent_no_panic.
Qed.

(** C9.  The failing input: the subscription of the Order service
    delivers every document that has a [timestamp] and whose [type] is
    [DiscountReserved] or [DiscountRejected]; when such a document has no
    [order_id], or one that is not a string, the unchecked
    [data["order_id"].(string)] of [listenForDecisions] panics, whoever is
    waiting. *)
Theorem listener_panics_without_order_id :
  let no_id : doc :=
    <["timestamp" := VTime 1769920200]> {["type" := VString "DiscountReserved"]} in
  let bad_id : doc :=
    <["timestamp" := VTime 1769920200]>
      (<["order_id" := VInt 42]> {["type" := VString "DiscountRejected"]}) in
  order.subscribed no_id = true ∧
  order.subscribed bad_id = true ∧
  (∀ visited responseMap,
     order.on_added visited no_id responseMap
     = Panic "interface conversion: interface {} is not string" ∧
     order.on_added visited bad_id responseMap
     = Panic "interface conversion: interface {} is not string") ∧
  (∀ d visited responseMap,
     order.subscribed d = true →
     as_string (d !! "order_id") = None →
     order.on_added visited d responseMap
     = Panic "interface conversion: interface {} is not string").
Proof.
  intros no_id bad_id. split; [by vm_compute|]. split; [by vm_compute|]. split.
  - intros visited responseMap. split; reflexivity.
  - intros d visited responseMap [Hty _]%andb_true_iff Hoid.
    unfold order.on_added. unfold where_in in Hty.
    destruct (as_string (d !! "type")) as [ty|]; [|done]. by rewrite Hoid.
Qed.

(** ** The Coordinator writes events only *)

Lemma handleOrder_begin_commits e r orderID traceID db responseMap db' responseMap' logs p :
  order.handleOrder_begin e r orderID traceID db responseMap = (db', responseMap', logs, p) →
  db' = db ∨ commits db db'.
Proof.
  unfold order.handleOrder_begin.
  destruct (negb (String.eqb (order.Method r) "POST")); [intros [= <- _ _ _]; by left|].
  destruct (order.Decoded r) as [req|]; [|intros [= <- _ _ _]; by left].
  destruct (negb (order.IsR1Eligible req)).
  { destruct (order.SimulateFailure req); intros [= <- _ _ _]; by left. }
  match goal with
  | |- context [Add e ?d db] => destruct (Add e d db) as [db1 err] eqn:Hadd
  end.
  destruct err; intros [= <- _ _ _]; right; by eapply commits_add.
Qed.

Lemma handleOrder_resume_commits e req orderID traceID w db responseMap db' responseMap' logs resp :
  order.handleOrder_resume e req orderID traceID w db responseMap
  = (db', responseMap', logs, resp) →
  db' = db ∨ commits db db'.
Proof.
  unfold order.handleOrder_resume.
  destruct w as [[d|d]|]; [|intros [= <- _ _ _]; by left..].
  destruct (order.SimulateFailure req); [|intros [= <- _ _ _]; by left].
  match goal with
  | |- context [Add e ?d db] => destruct (Add e d db) as [db1 err] eqn:Hadd
  end.
  intros [= <- _ _ _]. right. by eapply commits_add.
Qed.

(** ** The three scenarios of the specification *)

(** A: limit 100, base price 1300, granted, confirmed at 1144. *)
Example scenario_A :
  outcome_of (serve_one feb1 (request true false) "o1" "t1" no_events)
  = (1, [Some "OrderCreated"; Some "DiscountReserved"],
     Some {| order.StatusCode := 200;
             order.Body := order.JSON
               {| order.OrderID := "o1";
                  order.Status := "CONFIRMED";
                  order.Message :=
                    "Booking confirmed! Final price: ₹1144.00 (12% discount applied)" |} |}).
Proof. vm_compute. reflexivity. Qed.

(** B: the counter already at 100, denied, rejected. *)
Example scenario_B :
  outcome_of (serve_one feb1 (request true false) "o1" "t1" (taken 100))
  = (100, [Some "OrderCreated"; Some "DiscountRejected"],
     Some {| order.StatusCode := 429;
             order.Body := order.JSON
               {| order.OrderID := "o1";
                  order.Status := "REJECTED";
                  order.Message :=
                    "Daily discount quota reached. Please try again tomorrow." |} |}).
Proof. vm_compute. reflexivity. Qed.

(** C: granted, then the simulated failure: the Coordinator adds the
    release, the Ledger takes the reservation back. *)
Example scenario_C :
  outcome_of (serve_one feb1 (request true true) "o1" "t1" (taken 7))
  = (7, [Some "OrderCreated"; Some "DiscountReserved"; Some "DiscountRelease"],
     Some {| order.StatusCode := 500;
             order.Body := order.JSON
               {| order.OrderID := "o1";
                  order.Status := "FAILED";
                  order.Message :=
                    "Payment processing failed. Discount quota has been released." |} |}).
Proof. vm_compute. reflexivity. Qed.

(** A decision whose [reason] is not a string does not stop the listener,
    but it is neither logged nor dropped: [DataTo] fails, its error is
    ignored, and the handler answers with whatever was decoded before the
    failure (here nothing). *)
Example listener_delivers_undecodable :
  let bad : doc :=
    <["reason" := VInt 5]> (doc_of_DiscountRejected (rejected feb1 (booking "o2" true))) in
  DiscountRejected_of_doc bad = Err "firestore: cannot set reason" ∧
  match order.on_added (λ _, false) bad {["o2" := None]} with
  | Done (order.Sent waiting) =>
      match order.select "o2" waiting false with
      | Some w =>
          Some (order.handleOrder_resume feb1 (request true false) "o2" "trace-o2"
                  w (taken 100) waiting).2
      | None => None
      end
  | _ => None
  end
  = Some {| order.StatusCode := 429;
            order.Body := order.JSON {| order.OrderID := "o2";
                                        order.Status := "REJECTED";
                                        order.Message := "" |} |}.
Proof. split; vm_compute; reflexivity. Qed.

(** * Further properties of the two services *)

#[local] Set Warnings "-clear-no-such-hyp".

(** ** X1: the log only grows *)

Lemma commits_appends db db' :
  commits db db' →
  (∃ d, events db' = events db ++ [d]) ∨ events db' = events db.
Proof.
  intros Hstep.
  destruct Hstep as [e event db db' logs err Hrun
                    | e d db db' logs Hrun | e d db db' err Hadd].
  - destruct (runQuotaTransaction_cases e event db)
      as (db1 & logs1 & err1 & Hrun1 & Hc).
    rewrite Hrun in Hrun1. injection Hrun1 as <- <- <-.
    destruct Hc as [[-> _]|[(_ & _ & ->)|(_ & _ & ->)]]; simpl; eauto.
  - destruct (on_added_cases _ _ _ _ _ Hrun) as [->|[Ho|Hr]]; [by right| |].
    + destruct (processOrderEvent_cases e d db) as (db1 & logs1 & Hrun1 & Hc).
      rewrite Ho in Hrun1. injection Hrun1 as <- <-.
      destruct Hc as [->|(event & _ & _ & _ & [[_ ->]|[_ ->]])]; simpl; eauto.
    + destruct (processReleaseEvent_cases _ _ _ _ _ Hr) as [->|[_ ->]]; by right.
  - unfold Add in Hadd. case_decide; injection Hadd as <- _; simpl; eauto.
Qed.

Lemma commits_events_prefix db db' : commits db db' → events db `prefix_of` events db'.
Proof.
  intros Hstep. destruct (commits_appends _ _ Hstep) as [[d ->] | ->].
  - by apply prefix_app_r.
  - done.
Qed.

(** X1.  Whatever the Ledger and the clients of the store do, and whatever
    fails, the events already in the log stay where they are, unchanged:
    the log before is a prefix of the log after, and each step adds at
    most one event. *)
Theorem event_log_append_only db db' :
  rtc commits db db' →
  events db `prefix_of` events db' ∧
  (commits db db' →
   (length (events db') ≤ S (length (events db)))%nat).
Proof.
  intros Hrtc. split.
  - induction Hrtc as [|db db1 db2 Hstep _ IH]; [done|].
    etrans; [by apply commits_events_prefix|done].
  - intros Hstep. destruct (commits_appends _ _ Hstep) as [[d ->] | ->].
    + rewrite length_app. simpl. lia.
    + lia.
Qed.

Lemma event_log_append_only_witness :
  rtc commits no_events (granted_db feb1 (booking "o1" true) no_events) ∧
  events no_events `prefix_of` events (granted_db feb1 (booking "o1" true) no_events).
Proof.
  assert (rtc commits no_events (granted_db feb1 (booking "o1" true) no_events)) as Hrtc.
  { apply rtc_once.
    apply (commits_reserve feb1 (booking "o1" true) _ _ [Log Info "R2 Quota Reserved"] None).
    vm_compute. reflexivity. }
  split; [exact Hrtc|].
  exact (proj1 (event_log_append_only _ _ Hrtc)).
Defined.

(** ** X2: the Ledger writes the count of today and nothing else *)

Lemma merge_other_lookup (n : Z) (old : doc) f :
  f ≠ "count" → ({["count" := VInt n]} ∪ old) !! f = old !! f.
Proof.
  intros Hf. apply lookup_union_r. by apply lookup_singleton_ne.
Qed.

Lemma quotas_insert_today db evs key n :
  let db' := {| events := evs;
                daily_quotas := <[key := {["count" := VInt n]}
                                         ∪ default ∅ (daily_quotas db !! key)]>
                                  (daily_quotas db) |} in
  (∀ k, k ≠ key → daily_quotas db' !! k = daily_quotas db !! k) ∧
  (∀ qd, daily_quotas db !! key = Some qd →
     ∃ qd', daily_quotas db' !! key = Some qd' ∧
            ∀ f, f ≠ "count" → qd' !! f = qd !! f).
Proof.
  simpl. split.
  - intros k Hk. by rewrite lookup_insert_ne.
  - intros qd Hq. rewrite lookup_insert_eq, Hq. simpl.
    eexists. split; [done|]. intros f Hf. by apply merge_other_lookup.
Qed.

(** X2.  Handling one delivery, whatever the event and whatever fails, the
    Ledger leaves the counter documents of all other days as they are; the
    document of today, when there is one, is still there afterwards, and
    all its fields other than [count] are unchanged. *)
Theorem ledger_writes_todays_count_only e d db db' logs :
  discount.on_added e d db = Done (db', logs) →
  (∀ k, k ≠ today e → daily_quotas db' !! k = daily_quotas db !! k) ∧
  (∀ qd, daily_quotas db !! today e = Some qd →
     ∃ qd', daily_quotas db' !! today e = Some qd' ∧
            ∀ f, f ≠ "count" → qd' !! f = qd !! f).
Proof.
  intros Hrun.
  assert (∀ db0 : database,
            (∀ k, k ≠ today e → daily_quotas db0 !! k = daily_quotas db0 !! k) ∧
            (∀ qd, daily_quotas db0 !! today e = Some qd →
               ∃ qd', daily_quotas db0 !! today e = Some qd' ∧
                      ∀ f, f ≠ "count" → qd' !! f = qd !! f)) as Hsame.
  { intros db0. split; [done|]. intros qd Hq. eauto. }
  destruct (on_added_cases _ _ _ _ _ Hrun) as [->|[Ho|Hr]]; [apply Hsame| |].
  - destruct (processOrderEvent_cases e d db) as (db1 & logs1 & Hrun1 & Hc).
    rewrite Ho in Hrun1. injection Hrun1 as <- <-.
    destruct Hc as [->|(event & _ & _ & _ & [[_ ->]|[_ ->]])]; [apply Hsame| |].
    + apply quotas_insert_today.
    + apply (Hsame db).
  - destruct (processReleaseEvent_cases _ _ _ _ _ Hr) as [->|[_ ->]]; [apply Hsame|].
    apply quotas_insert_today.
Qed.

Lemma ledger_writes_todays_count_only_witness :
  let db := {| events := [];
               daily_quotas := {["2026-02-01" := <["note" := VString "kept"]> {["count" := VInt 3]};
                                 "2026-01-31" := {["count" := VInt 100]}]} |} in
  ∃ db' logs qd',
    discount.on_added feb1 (doc_of_OrderCreated (booking "o1" true)) db = Done (db', logs) ∧
    daily_quotas db' !! "2026-01-31" = Some {["count" := VInt 100]} ∧
    daily_quotas db' !! "2026-02-01" = Some qd' ∧
    qd' !! "note" = Some (VString "kept").
Proof.
  intros db.
  destruct (discount.on_added feb1 (doc_of_OrderCreated (booking "o1" true)) db)
    as [[db' logs]|what] eqn:Hrun; [|by vm_compute in Hrun].
  destruct (ledger_writes_todays_count_only _ _ _ _ _ Hrun) as [Hother Htoday].
  destruct (Htoday (<["note" := VString "kept"]> {["count" := VInt 3]}))
    as (qd' & Hq' & Hfields); [by vm_compute|].
  exists db', logs, qd'. split_and!; [done| |exact Hq'|].
  - rewrite (Hother "2026-01-31"); [by vm_compute|]. by vm_compute.
  - rewrite (Hfields "note"); [by vm_compute|done].
Defined.

(** ** X3: the subscription loop of the Ledger keeps running *)

(** X3.  Started on counter documents that are well formed (an integer
    [count] within the quota, as the Ledger writes them), the loop of the
    Ledger handles any sequence of documents its subscription can deliver,
    in any order, with any repetition and whatever fails in the store,
    without a panic; the counter documents are well formed afterwards and
    the log has only grown. *)
Theorem ledger_loop_keeps_running ds db :
  counters_wf db →
  Forall (λ ed, discount.subscribed ed.2 = true) ds →
  ∃ db' logs,
    discount.run ds db = Done (db', logs) ∧
    counters_wf db' ∧
    within_quota db' ∧
    events db `prefix_of` events db'.
Proof.
  intros Hwf Hds. revert db Hwf.
  induction Hds as [|[e d] ds Hsub _ IH]; intros db Hwf.
  - exists db, []. split_and!; [done|done|by apply counters_wf_within_quota|done].
  - simpl in Hsub. cbn [discount.run].
    destruct (ledger_survives_events e d db Hwf Hsub) as (db1 & logs1 & Hrun1).
    rewrite Hrun1.
    assert (commits db db1) as Hstep by by eapply commits_ledger.
    destruct (IH db1 (counters_wf_commits _ _ Hwf Hstep))
      as (db2 & logs2 & -> & Hwf2 & Hinv2 & Hpre2).
    exists db2, (logs1 ++ logs2). split_and!; [done..|].
    etrans; [by apply commits_events_prefix|done].
Qed.

Lemma ledger_loop_keeps_running_witness :
  let junk : doc :=
    <["timestamp" := VString "yesterday"]>
      (<["order_id" := VInt 7]> {["type" := VString "OrderCreated"]}) in
  let ds := [(feb1, junk);
             (feb1, doc_of_DiscountRelease (release_of "nobody"));
             (feb1, doc_of_OrderCreated (booking "o1" true));
             (feb1, doc_of_OrderCreated (booking "o1" true))] in
  counters_wf no_events ∧
  ∃ db' logs, discount.run ds no_events = Done (db', logs) ∧ counters_wf db'.
Proof.
  intros junk ds.
  assert (counters_wf no_events) as Hwf.
  { intros key qd Hq. simpl in Hq. by rewrite lookup_empty in Hq. }
  split; [exact Hwf|].
  destruct (ledger_loop_keeps_running ds no_events Hwf) as (db' & logs & Hrun & Hwf' & _).
  - repeat constructor.
  - exists db', logs. split; [exact Hrun|exact Hwf'].
Defined.

(** ** X4: what the idempotency query answers *)

Lemma where_in_decision_types d :
  where_in "type" [EventTypeDiscountReserved; EventTypeDiscountRejected] d = true
  ↔ as_string (d !! "type") = Some "DiscountReserved"
    ∨ as_string (d !! "type") = Some "DiscountRejected".
Proof.
  unfold where_in. destruct (as_string (d !! "type")) as [ty|]; simpl.
  - rewrite orb_false_r, orb_true_iff, !String.eqb_eq.
    unfold EventTypeDiscountReserved, EventTypeDiscountRejected. naive_solver.
  - naive_solver.
Qed.

Lemma decision_of_spec orderID d :
  decision_of orderID d = true
  ↔ as_string (d !! "order_id") = Some orderID
    ∧ (as_string (d !! "type") = Some "DiscountReserved"
       ∨ as_string (d !! "type") = Some "DiscountRejected").
Proof.
  unfold decision_of. rewrite andb_true_iff, where_in_decision_types.
  unfold where_eq. destruct (as_string (d !! "order_id")) as [oid|].
  - rewrite String.eqb_eq. naive_solver.
  - naive_solver.
Qed.

(** X4.  [checkDecisionExists] returns an error exactly when the query
    fails.  Otherwise it returns [true] exactly when the log holds a
    document whose [order_id] is the string asked for and whose [type] is
    [DiscountReserved] or [DiscountRejected]; documents of other types, and
    documents whose [order_id] is not a string, never count. *)
Theorem checkDecisionExists_spec e db orderID :
  (failing e = FailQuery ↔ ∃ err, checkDecisionExists e db orderID = Err err) ∧
  (checkDecisionExists e db orderID = Ok true
   ↔ failing e ≠ FailQuery
     ∧ ∃ d, d ∈ events db
            ∧ as_string (d !! "order_id") = Some orderID
            ∧ (as_string (d !! "type") = Some "DiscountReserved"
               ∨ as_string (d !! "type") = Some "DiscountRejected")).
Proof.
  unfold checkDecisionExists.
  destruct (decide (failing e = FailQuery)) as [Hf|Hf].
  { split; [split; eauto|]. split; [done|]. by intros [? _]. }
  fold (decisions_for orderID (events db)). split.
  { split; [done|]. by intros [err ?]. }
  destruct (decisions_for orderID (events db)) as [|d0 l] eqn:Hdec; simpl.
  - split; [done|]. intros [_ (d & Hin & Hd)].
    apply decision_of_spec in Hd.
    assert (d ∈ decisions_for orderID (events db)) as Hdin.
    { unfold decisions_for. apply list_elem_of_filter. split; [by rewrite Hd|done]. }
    rewrite Hdec in Hdin. by apply elem_of_nil in Hdin.
  - split; [|done]. intros _. split; [done|].
    assert (d0 ∈ decisions_for orderID (events db)) as Hdin.
    { rewrite Hdec. by left. }
    unfold decisions_for in Hdin. apply list_elem_of_filter in Hdin as [Hd Hin].
    exists d0. split; [done|]. apply decision_of_spec. by apply Is_true_true.
Qed.

(** ** X5: one decision per order, whatever is delivered *)

Lemma decisions_for_snoc_other oid evs dd :
  decision_of oid dd = false →
  decisions_for oid (evs ++ [dd]) = decisions_for oid evs.
Proof.
  intros Hdd. rewrite decisions_for_app. unfold decisions_for at 2.
  rewrite filter_cons_False; [apply app_nil_r|]. rewrite Hdd. simpl. tauto.
Qed.

Lemma decided_once_snoc db evs' dd oid0 :
  decided_once db →
  decisions_for oid0 (events db) = [] →
  (∀ oid, decision_of oid dd = String.eqb oid0 oid) →
  evs' = events db ++ [dd] →
  ∀ oid, (length (decisions_for oid evs') ≤ 1)%nat.
Proof.
  intros Honce Hnone Hdd -> oid.
  destruct (String.eqb_spec oid0 oid) as [<-|Hne].
  - rewrite decisions_for_snoc, Hnone; [simpl; lia|].
    rewrite Hdd. apply String.eqb_refl.
  - rewrite decisions_for_snoc_other; [apply Honce|].
    rewrite Hdd. by apply String.eqb_neq.
Qed.

Lemma decided_once_on_added e d db db' logs :
  decided_once db → discount.on_added e d db = Done (db', logs) → decided_once db'.
Proof.
  intros Honce Hrun.
  destruct (on_added_cases _ _ _ _ _ Hrun) as [->|[Ho|Hr]]; [done| |].
  - destruct (processOrderEvent_cases e d db) as (db1 & logs1 & Hrun1 & Hc).
    rewrite Ho in Hrun1. injection Hrun1 as <- <-.
    destruct Hc as [->|(event & _ & _ & Hnone & [[_ ->]|[_ ->]])]; [done| |].
    + intros oid. simpl.
      eapply (decided_once_snoc db); [done|exact Hnone| |done].
      intros oid'. apply decision_of_approved.
    + intros oid. simpl.
      eapply (decided_once_snoc db); [done|exact Hnone| |done].
      intros oid'. apply decision_of_rejected.
  - destruct (processReleaseEvent_cases _ _ _ _ _ Hr) as [->|[_ ->]]; done.
Qed.

(** X5.  If no order has more than one decision in the log, this is still
    so after the loop of the Ledger has handled any sequence of deliveries
    of its subscription: the same request delivered again, in any order,
    at any time and with any failures of the store in between, never gets
    a second decision. *)
Theorem ledger_decides_each_order_once ds db :
  decided_once db →
  counters_wf db →
  Forall (λ ed, discount.subscribed ed.2 = true) ds →
  ∃ db' logs, discount.run ds db = Done (db', logs) ∧ decided_once db'.
Proof.
  intros Honce Hwf Hds. revert db Honce Hwf.
  induction Hds as [|[e d] ds Hsub _ IH]; intros db Honce Hwf.
  - exists db, []. done.
  - simpl in Hsub. cbn [discount.run].
    destruct (ledger_survives_events e d db Hwf Hsub) as (db1 & logs1 & Hrun1).
    rewrite Hrun1.
    assert (commits db db1) as Hstep by by eapply commits_ledger.
    destruct (IH db1 (decided_once_on_added _ _ _ _ _ Honce Hrun1)
                (counters_wf_commits _ _ Hwf Hstep)) as (db2 & logs2 & -> & Honce2).
    eauto.
Qed.

Lemma ledger_decides_each_order_once_witness :
  let o1 := doc_of_OrderCreated (booking "o1" true) in
  let o2 := doc_of_OrderCreated (booking "o2" true) in
  let ds := [(feb1, o1); (feb1, o2); (feb1_late, o1); (feb2_early, o2); (feb2_early, o1)] in
  decided_once no_events ∧ counters_wf no_events ∧
  ∃ db' logs,
    discount.run ds no_events = Done (db', logs) ∧
    (length (decisions_for "o1" (events db')) ≤ 1)%nat ∧
    (length (decisions_for "o2" (events db')) ≤ 1)%nat.
Proof.
  intros o1 o2 ds.
  assert (decided_once no_events) as Honce.
  { intros oid. simpl. lia. }
  assert (counters_wf no_events) as Hwf.
  { intros key qd Hq. simpl in Hq. by rewrite lookup_empty in Hq. }
  split_and!; [exact Honce|exact Hwf|].
  destruct (ledger_decides_each_order_once ds no_events Honce Hwf)
    as (db' & logs & Hrun & Honce').
  - repeat constructor.
  - exists db', logs. split_and!; [exact Hrun|apply Honce'..].
Defined.

(** ** X6: no service is delivered what it wrote itself *)

Lemma added_snoc db evs d :
  added db {| events := events db ++ [d]; daily_quotas := evs |} = [d].
Proof. unfold added. simpl. by rewrite drop_app_length. Qed.

Lemma added_same db db' : events db' = events db → added db db' = [].
Proof. unfold added. intros ->. by rewrite drop_all. Qed.

Lemma subscribed_base b d :
  discount.subscribed (base_fields b d)
  = existsb (String.eqb (Type_ b)) [EventTypeOrderCreated; EventTypeDiscountRelease] ∧
  order.subscribed (base_fields b d)
  = existsb (String.eqb (Type_ b)) [EventTypeDiscountReserved; EventTypeDiscountRejected].
Proof.
  assert (order_by "timestamp" (base_fields b d) = true) as Hts.
  { unfold order_by, base_fields.
    rewrite lookup_insert_ne, lookup_insert_ne, lookup_insert_eq by done. done. }
  unfold discount.subscribed, order.subscribed.
  by rewrite !where_in_type_base, Hts, !andb_true_r.
Qed.

(** X6.  Every event the Ledger adds to the log matches the query of the
    Coordinator's subscription (its [type] is one of the two asked for and
    it has the [timestamp] the query orders by) and not its own, and every
    event the Coordinator adds (the booking request, the release) matches
    the query of the Ledger's subscription and not its own: neither
    service is ever delivered an event it wrote. *)
Theorem no_service_hears_itself :
  (∀ e d db db' logs,
     discount.on_added e d db = Done (db', logs) →
     Forall (λ d', order.subscribed d' = true ∧ discount.subscribed d' = false)
            (added db db')) ∧
  (∀ e r orderID traceID db responseMap db' responseMap' logs p,
     order.handleOrder_begin e r orderID traceID db responseMap
     = (db', responseMap', logs, p) →
     Forall (λ d', discount.subscribed d' = true ∧ order.subscribed d' = false)
            (added db db')) ∧
  (∀ e req orderID traceID w db responseMap db' responseMap' logs resp,
     order.handleOrder_resume e req orderID traceID w db responseMap
     = (db', responseMap', logs, resp) →
     Forall (λ d', discount.subscribed d' = true ∧ order.subscribed d' = false)
            (added db db')).
Proof.
  split_and!.
  - intros e d db db' logs Hrun.
    destruct (on_added_cases _ _ _ _ _ Hrun) as [->|[Ho|Hr]].
    + by rewrite added_same.
    + destruct (processOrderEvent_cases e d db) as (db1 & logs1 & Hrun1 & Hc).
      rewrite Ho in Hrun1. injection Hrun1 as <- <-.
      destruct Hc as [->|(event & _ & _ & _ & [[_ ->]|[_ ->]])].
      * by rewrite added_same.
      * rewrite added_snoc. repeat constructor;
          unfold doc_of_DiscountReserved; by rewrite (proj1 (subscribed_base _ _)) ||
                                              by rewrite (proj2 (subscribed_base _ _)).
      * unfold denied_db. rewrite added_snoc. repeat constructor;
          unfold doc_of_DiscountRejected; by rewrite (proj1 (subscribed_base _ _)) ||
                                              by rewrite (proj2 (subscribed_base _ _)).
    + destruct (processReleaseEvent_cases _ _ _ _ _ Hr) as [->|[_ ->]];
        by rewrite added_same.
  - intros e r orderID traceID db responseMap db' responseMap' logs p.
    unfold order.handleOrder_begin.
    destruct (negb (String.eqb (order.Method r) "POST"));
      [intros [= <- _ _ _]; by rewrite added_same|].
    destruct (order.Decoded r) as [req|]; [|intros [= <- _ _ _]; by rewrite added_same].
    destruct (negb (order.IsR1Eligible req)).
    { destruct (order.SimulateFailure req); intros [= <- _ _ _]; by rewrite added_same. }
    unfold Add. case_decide; intros [= <- _ _ _]; [by rewrite added_same|].
    simpl. rewrite added_snoc. repeat constructor;
      unfold doc_of_OrderCreated; by rewrite (proj1 (subscribed_base _ _)) ||
                                          by rewrite (proj2 (subscribed_base _ _)).
  - intros e req orderID traceID w db responseMap db' responseMap' logs resp.
    unfold order.handleOrder_resume.
    destruct w as [[dd|dd]|]; [|intros [= <- _ _ _]; by rewrite added_same..].
    destruct (order.SimulateFailure req); [|intros [= <- _ _ _]; by rewrite added_same].
    unfold Add. case_decide; intros [= <- _ _ _]; [by rewrite added_same|].
    simpl. rewrite added_snoc. repeat constructor;
      unfold doc_of_DiscountRelease; by rewrite (proj1 (subscribed_base _ _)) ||
                                           by rewrite (proj2 (subscribed_base _ _)).
Qed.

Lemma no_service_hears_itself_witness :
  discount.on_added feb1 (doc_of_OrderCreated (booking "o1" true)) no_events
  = Done (granted_db feb1 (booking "o1" true) no_events,
          [Log Info "Processing R1-Eligible Order"; Log Info "R2 Quota Reserved"]) ∧
  Forall (λ d', order.subscribed d' = true ∧ discount.subscribed d' = false)
         (added no_events (granted_db feb1 (booking "o1" true) no_events)).
Proof.
  assert (discount.on_added feb1 (doc_of_OrderCreated (booking "o1" true)) no_events
          = Done (granted_db feb1 (booking "o1" true) no_events,
                  [Log Info "Processing R1-Eligible Order"; Log Info "R2 Quota Reserved"]))
    as Hrun.
  { vm_compute. reflexivity. }
  split; [exact Hrun|].
  exact (proj1 no_service_hears_itself _ _ _ _ _ Hrun).
Defined.

(** ** X7 and X8: failures of the store *)

(** X7.  For an eligible booking request: when the idempotency query
    fails, or when no decision exists and the read of the counter, the
    write of the decision event or the commit fails (or the write of the
    counter, below the limit), the Ledger logs the error and leaves the
    database exactly as it was: neither the counter nor the log changes,
    and no decision is written for the request. *)
Theorem reservation_fails_cleanly e d event db :
  OrderCreated_of_doc d = Ok event →
  IsR1Eligible event = true →
  (failing e = FailQuery →
   processOrderEvent e d db
   = Done (db, [Log Info "Processing R1-Eligible Order";
                Log Error "Failed to check existing decision"])) ∧
  (decisions_for (oc_OrderID event) (events db) = [] →
   failing e = FailGet ∨ failing e = FailSetEvent ∨ failing e = FailCommit
   ∨ (failing e = FailSetQuota ∧ reserved db (today e) < QuotaLimit) →
   ∃ logs,
     processOrderEvent e d db
     = Done (db, Log Info "Processing R1-Eligible Order"
                 :: logs ++ [Log Error "Transaction failed"])).
Proof.
  intros Hd Hel. unfold processOrderEvent. rewrite Hd, Hel. simpl. split.
  - intros Hf. unfold checkDecisionExists. by rewrite decide_True.
  - intros Hnone Hfault.
    assert (failing e ≠ FailQuery) as Hquery.
    { destruct Hfault as [->|[->|[->|[-> _]]]]; done. }
    rewrite checkDecisionExists_fresh by done.
    unfold runQuotaTransaction, RunTransaction, quotaTx.
    destruct (decide (failing e = FailGet)) as [Hg|Hg].
    { unfold tx_Get. rewrite decide_True by done. simpl. by exists []. }
    rewrite quotaTx_read by done. unfold tx_Set.
    destruct (Z.ltb_spec (reserved db (today e)) QuotaLimit) as [Hlt|Hge].
    + destruct (decide (failing e = FailSetQuota)); [by exists []|].
      destruct (decide (failing e = FailSetEvent)); [simpl; by eexists (_ :: nil)|].
      destruct (decide (failing e = FailCommit)); [simpl; by eexists (_ :: nil)|].
      naive_solver.
    + destruct (decide (failing e = FailSetEvent)); [simpl; by eexists (_ :: nil)|].
      destruct (decide (failing e = FailCommit)); [simpl; by eexists (_ :: nil)|].
      destruct Hfault as [?|[?|[?|[_ ?]]]]; (done || lia).
Qed.

Lemma reservation_fails_cleanly_witness :
  let e := {| now := 1769920200; failing := FailCommit |} in
  ∃ logs,
    processOrderEvent e (doc_of_OrderCreated (booking "o1" true)) (taken 3)
    = Done (taken 3, Log Info "Processing R1-Eligible Order"
                     :: logs ++ [Log Error "Transaction failed"]).
Proof.
  intros e.
  destruct (reservation_fails_cleanly e (doc_of_OrderCreated (booking "o1" true))
              (booking "o1" true) (taken 3)) as [_ Htx].
  - apply OrderCreated_roundtrip.
  - reflexivity.
  - apply Htx; [reflexivity|]. right; right; left. reflexivity.
Defined.

(** X8.  For a release event that parses, on well-formed counter
    documents: when the read of the counter or the commit fails, or the
    write of a positive counter fails, the Ledger logs "Compensation
    failed" and leaves the database as it was.  The reservation stays on
    the counter; nothing in the handler tries again. *)
Theorem release_fails_cleanly e d rel db :
  DiscountRelease_of_doc d = Ok rel →
  counters_wf db →
  failing e = FailGet ∨ failing e = FailCommit
  ∨ (failing e = FailSetQuota ∧ 0 < reserved db (today e)) →
  ∃ logs,
    processReleaseEvent e d db
    = Done (db, logs ++ [Log Error "Compensation failed"]).
Proof.
  intros Hd Hwf Hfault. unfold processReleaseEvent, RunTransaction, releaseTx, tx_Get.
  rewrite Hd.
  destruct (decide (failing e = FailGet)) as [Hg|Hg]; [by exists []|].
  destruct (daily_quotas db !! today e) as [qd|] eqn:Hq.
  - destruct (Hwf _ _ Hq) as (c & Hc & _).
    pose proof (reserved_lookup _ _ _ _ Hq Hc) as Hres.
    rewrite Hc. simpl. unfold tx_Set.
    destruct (Z.ltb_spec 0 c) as [Hpos|Hle].
    + destruct (decide (failing e = FailSetQuota)); [by exists []|].
      destruct (decide (failing e = FailCommit)); [simpl; by eexists (_ :: nil)|].
      naive_solver.
    + destruct (decide (failing e = FailCommit)); [simpl; by eexists (_ :: nil)|].
      destruct Hfault as [?|[?|[_ ?]]]; (done || lia).
  - destruct (decide (failing e = FailCommit)); [simpl; by eexists (_ :: nil)|].
    rewrite (reserved_absent _ _ Hq) in Hfault.
    destruct Hfault as [?|[?|[_ ?]]]; (done || lia).
Qed.

Lemma release_fails_cleanly_witness :
  let e := {| now := 1769920200; failing := FailSetQuota |} in
  counters_wf (taken 2) ∧
  ∃ logs,
    processReleaseEvent e (doc_of_DiscountRelease (release_of "o1")) (taken 2)
    = Done (taken 2, logs ++ [Log Error "Compensation failed"]).
Proof.
  intros e.
  assert (counters_wf (taken 2)) as Hwf.
  { intros key qd Hq. unfold taken in Hq. simpl in Hq.
    apply lookup_singleton_Some in Hq as [_ <-].
    exists 2. split; [reflexivity|]. vm_compute. split; discriminate. }
  split; [exact Hwf|].
  apply (release_fails_cleanly e _ (release_of "o1")).
  - apply DiscountRelease_roundtrip.
  - exact Hwf.
  - right; right. split; [reflexivity|]. vm_compute. reflexivity.
Defined.

(** ** X9: a counter document without an integer count *)

(** X9.  When today's counter document exists but its [count] is missing
    or not an integer, the two transactions differ.  The reservation reads
    the counter as zero: with the store healthy it grants, and the merge
    puts [count = 1] into the document beside its other fields.  The
    release, unless its read fails, panics on the unchecked type
    assertion. *)
Theorem counter_without_integer_count e qd db :
  daily_quotas db !! today e = Some qd →
  as_int64 (qd !! "count") = None →
  (failing e = NoFault →
   ∀ event,
     runQuotaTransaction e event db
     = Done ({| events := events db ++ [doc_of_DiscountReserved (approved e event)];
                daily_quotas := <[today e := {["count" := VInt 1]} ∪ qd]> (daily_quotas db) |},
             [Log Info "R2 Quota Reserved"], None)) ∧
  (failing e ≠ FailGet →
   ∀ d rel,
     DiscountRelease_of_doc d = Ok rel →
     processReleaseEvent e d db
     = Panic "interface conversion: interface {} is not int64").
Proof.
  intros Hq Hc. split.
  - intros Hf event.
    assert (reserved db (today e) = 0) as Hres.
    { unfold reserved. by rewrite Hq, Hc. }
    rewrite runQuotaTransaction_grant; [|done| |].
    + unfold granted_db. by rewrite Hres, Hq.
    + rewrite Hres. vm_compute. split; discriminate.
    + rewrite Hres. by vm_compute.
  - intros Hf d rel Hd.
    unfold processReleaseEvent, RunTransaction, releaseTx, tx_Get.
    by rewrite Hd, decide_False, Hq, Hc.
Qed.

Lemma counter_without_integer_count_witness :
  let db := {| events := [];
               daily_quotas := {["2026-02-01" := {["count" := VString "3"]}]} |} in
  (∃ db' logs,
     runQuotaTransaction feb1 (booking "o1" true) db = Done (db', logs, None) ∧
     daily_quotas db' !! "2026-02-01" = Some {["count" := VInt 1]}) ∧
  processReleaseEvent feb1 (doc_of_DiscountRelease (release_of "o1")) db
  = Panic "interface conversion: interface {} is not int64".
Proof.
  intros db.
  destruct (counter_without_integer_count feb1 {["count" := VString "3"]} db)
    as [Hgrant Hrelease].
  - vm_compute. reflexivity.
  - vm_compute. reflexivity.
  - split.
    + do 2 eexists. split; [apply Hgrant; reflexivity|]. vm_compute. reflexivity.
    + apply (Hrelease ltac:(discriminate) _ (release_of "o1")).
      apply DiscountRelease_roundtrip.
Defined.

(** ** X11: an eligible request reaches the Ledger *)

Lemma handleOrder_begin_eligible e r req orderID traceID db responseMap :
  order.Method r = "POST" →
  order.Decoded r = Some req →
  order.IsR1Eligible req = true →
  failing e ≠ FailAdd →
  order.handleOrder_begin e r orderID traceID db responseMap
  = ({| events := events db ++ [doc_of_OrderCreated (order_event e req orderID traceID)];
        daily_quotas := daily_quotas db |},
     <[orderID := None]> responseMap,
     [Log Info "Order Received"; Log Info "Order Event Published - Checking R2 Quota"],
     order.Waiting).
Proof.
  intros Hm Hdec Hel Hf. unfold order.handleOrder_begin.
  unfold order_event. rewrite Hm, Hdec, Hel. simpl. unfold Add. by rewrite decide_False.
Qed.

Lemma convertToEventServices_fields (l : list order.Service) :
  svc_Name <$> order.convertToEventServices l = order.Name <$> l ∧
  svc_Price <$> order.convertToEventServices l = order.Price <$> l.
Proof.
  unfold order.convertToEventServices. rewrite <- !list_fmap_compose. done.
Qed.

(** X11.  For a POST request that decodes, is eligible, and whose event
    the store accepts: [handleOrder] registers a channel under the order
    identifier, adds exactly one document to the log, leaves the counters
    alone and waits.  The Ledger's subscription delivers that document,
    its loop takes it for a booking request, and [DataTo] gives the Ledger
    the order and trace identifiers, the eligibility flag, the prices and
    the selected services (same names and prices, same order) of the
    request. *)
Theorem eligible_request_is_published e r req orderID traceID db responseMap :
  order.Method r = "POST" →
  order.Decoded r = Some req →
  order.IsR1Eligible req = true →
  failing e ≠ FailAdd →
  ∃ d ev logs,
    order.handleOrder_begin e r orderID traceID db responseMap
    = ({| events := events db ++ [d]; daily_quotas := daily_quotas db |},
       <[orderID := None]> responseMap, logs, order.Waiting) ∧
    discount.subscribed d = true ∧
    where_eq "type" EventTypeOrderCreated d = true ∧
    OrderCreated_of_doc d = Ok ev ∧
    oc_OrderID ev = orderID ∧
    TraceID (oc_base ev) = traceID ∧
    IsR1Eligible ev = true ∧
    BasePrice ev = order.BasePrice req ∧
    DiscountPercent ev = order.DiscountPercent req ∧
    FinalPrice ev = order.FinalPrice req ∧
    svc_Name <$> SelectedServices ev = order.Name <$> order.SelectedServices req ∧
    svc_Price <$> SelectedServices ev = order.Price <$> order.SelectedServices req.
Proof.
  intros Hm Hdec Hel Hf.
  exists (doc_of_OrderCreated (order_event e req orderID traceID)),
    (order_event e req orderID traceID). eexists.
  destruct (convertToEventServices_fields (order.SelectedServices req)) as [Hn Hp].
  split_and!; try done.
  - by apply handleOrder_begin_eligible.
  - apply OrderCreated_roundtrip.
Qed.

Lemma eligible_request_is_published_witness :
  ∃ d ev logs,
    order.handleOrder_begin feb1 (post (request true false)) "o1" "t1" (taken 5) ∅
    = ({| events := [d]; daily_quotas := daily_quotas (taken 5) |},
       {["o1" := None]}, logs, order.Waiting) ∧
    OrderCreated_of_doc d = Ok ev ∧
    oc_OrderID ev = "o1" ∧
    svc_Name <$> SelectedServices ev = ["MRI"].
Proof.
  destruct (eligible_request_is_published feb1 (post (request true false))
              (request true false) "o1" "t1" (taken 5) ∅)
    as (d & ev & logs & Hrun & _ & _ & Hd & Hoid & _ & _ & _ & _ & _ & Hnames & _).
  - reflexivity.
  - reflexivity.
  - reflexivity.
  - discriminate.
  - exists d, ev, logs. split_and!; [exact Hrun|exact Hd|exact Hoid|exact Hnames].
Defined.

(** ** X12: a channel is used once *)

(** X12.  However the wait of [handleOrder] ends (a grant, a denial or the
    timeout), the order is no longer registered afterwards and the other
    pending orders are registered as before; the timeout answers 504 and
    writes nothing.  From then on the listener ignores every decision
    document for that order, a duplicate or a late one, and leaves the
    registry as it is. *)
Theorem channel_is_used_once e req orderID traceID w db responseMap :
  ∃ db' logs resp,
    order.handleOrder_resume e req orderID traceID w db responseMap
    = (db', delete orderID responseMap, logs, resp) ∧
    delete orderID responseMap !! orderID = None ∧
    (∀ other, other ≠ orderID →
       delete orderID responseMap !! other = responseMap !! other) ∧
    (w = order.TimedOut →
     db' = db ∧
     resp = {| order.StatusCode := 504;
               order.Body := order.Text "Timeout waiting for discount service" |}) ∧
    (∀ visited d ty,
       as_string (d !! "type") = Some ty →
       as_string (d !! "order_id") = Some orderID →
       order.on_added visited d (delete orderID responseMap) = Done order.Ignored).
Proof.
  assert (∀ visited d ty,
            as_string (d !! "type") = Some ty →
            as_string (d !! "order_id") = Some orderID →
            order.on_added visited d (delete orderID responseMap) = Done order.Ignored)
    as Hignored.
  { intros visited d ty Hty Hoid. unfold order.on_added.
    by rewrite Hty, Hoid, lookup_delete_eq. }
  assert (∀ other, other ≠ orderID →
            delete orderID responseMap !! other = responseMap !! other) as Hothers.
  { intros other Hne. by apply lookup_delete_ne. }
  unfold order.handleOrder_resume.
  destruct w as [[dd|dd]|].
  - destruct (order.SimulateFailure req).
    + destruct (Add e _ db) as [db1 err]. do 3 eexists.
      split_and!; [done|apply lookup_delete_eq|done|done|done].
    + do 3 eexists. split_and!; [done|apply lookup_delete_eq|done|done|done].
  - do 3 eexists. split_and!; [done|apply lookup_delete_eq|done|done|done].
  - do 3 eexists. split_and!; [done|apply lookup_delete_eq|done|done|done].
Qed.

(** ** X13: answers given without waiting *)

(** X13.  Whenever [handleOrder] answers without waiting (the method is
    not POST: 405; the body does not decode: 400; the request is not
    eligible: 200 or the simulated 500; the booking event cannot be
    published: 500), it has written nothing to the database, the order is
    registered afterwards only if it was before, and the other pending
    orders are registered as before. *)
Theorem immediate_answers_leave_no_trace e r orderID traceID db responseMap
    db' responseMap' logs resp :
  order.handleOrder_begin e r orderID traceID db responseMap
  = (db', responseMap', logs, order.Answered resp) →
  db' = db ∧
  (∀ other, other ≠ orderID → responseMap' !! other = responseMap !! other) ∧
  (responseMap !! orderID = None → responseMap' !! orderID = None) ∧
  order.StatusCode resp ∈ [200; 400; 405; 500] ∧
  (order.StatusCode resp = 405 ↔ order.Method r ≠ "POST") ∧
  (order.StatusCode resp = 400 ↔ order.Method r = "POST" ∧ order.Decoded r = None).
Proof.
  unfold order.handleOrder_begin.
  destruct (String.eqb_spec (order.Method r) "POST") as [Hm|Hm]; simpl.
  2:{ intros [= <- <- _ <-]. simpl. split_and!; try done; [set_solver|naive_solver]. }
  destruct (order.Decoded r) as [req|].
  2:{ intros [= <- <- _ <-]. simpl. split_and!; try done; set_solver. }
  destruct (negb (order.IsR1Eligible req)).
  { destruct (order.SimulateFailure req); intros [= <- <- _ <-]; simpl;
      (split_and!; try done; [set_solver|naive_solver]). }
  unfold Add. case_decide; [|done].
  intros [= <- <- _ <-]. simpl. split_and!; try done.
  - intros other Hne. by rewrite lookup_delete_ne, lookup_insert_ne.
  - intros _. apply lookup_delete_eq.
  - set_solver.
  - naive_solver.
Qed.

Lemma immediate_answers_leave_no_trace_witness :
  let e := {| now := 1769920200; failing := FailAdd |} in
  let pending : order.registry := {["o0" := None]} in
  ∃ responseMap' logs resp,
    order.handleOrder_begin e (post (request true false)) "o1" "t1" (taken 5) pending
    = (taken 5, responseMap', logs, order.Answered resp) ∧
    responseMap' !! "o0" = Some None ∧
    responseMap' !! "o1" = None ∧
    order.StatusCode resp = 500.
Proof.
  intros e pending.
  destruct (order.handleOrder_begin e (post (request true false)) "o1" "t1" (taken 5) pending)
    as [[[db' responseMap'] logs] p] eqn:Hrun.
  destruct p as [resp|]; [|by vm_compute in Hrun].
  destruct (immediate_answers_leave_no_trace _ _ _ _ _ _ _ _ _ _ Hrun)
    as (-> & Hothers & Hself & _).
  exists responseMap', logs, resp. split_and!; [done| | |].
  - rewrite (Hothers "o0"); [by vm_compute|done].
  - apply Hself. by vm_compute.
  - vm_compute in Hrun. by injection Hrun as _ _ <-.
Defined.

Lemma channel_is_used_once_witness :
  let pending : order.registry := {["o1" := None; "o2" := None]} in
  ∃ responseMap' logs resp,
    order.handleOrder_resume feb1 (request true false) "o1" "t1" order.TimedOut
      (taken 5) pending
    = (taken 5, responseMap', logs, resp) ∧
    order.StatusCode resp = 504 ∧
    responseMap' !! "o2" = Some None ∧
    order.on_added (λ _, true)
      (doc_of_DiscountReserved (approved feb1 (booking "o1" true))) responseMap'
    = Done order.Ignored.
Proof.
  intros pending.
  destruct (channel_is_used_once feb1 (request true false) "o1" "t1" order.TimedOut
              (taken 5) pending)
    as (db' & logs & resp & Hrun & _ & Hothers & Htimeout & Hignored).
  destruct (Htimeout eq_refl) as [-> ->].
  exists (delete "o1" pending), logs. eexists. split_and!; [exact Hrun|reflexivity| |].
  - rewrite Hothers; [by vm_compute|done].
  - apply (Hignored _ _ "DiscountReserved"); by vm_compute.
Defined.

(** ** X14: one request through the whole saga *)

Lemma ledger_catches_up_snoc e db quotas d :
  discount.subscribed d = true →
  ledger_catches_up e (length (events db))
    {| events := events db ++ [d]; daily_quotas := quotas |}
  = discount.run [(e, d)] {| events := events db ++ [d]; daily_quotas := quotas |}.
Proof.
  intros Hsub. unfold ledger_catches_up. simpl events.
  rewrite drop_app_length, filter_cons_True by by rewrite Hsub.
  by rewrite filter_nil.
Qed.

Lemma ledger_catches_up_nothing e db :
  ledger_catches_up e (length (events db)) db = Done (db, []).
Proof. unfold ledger_catches_up. by rewrite drop_all. Qed.

Lemma run_one e d db :
  discount.run [(e, d)] db
  = match discount.on_added e d db with
    | Panic what => Panic what
    | Done (db', logs) => Done (db', logs ++ [])
    end.
Proof. simpl. by destruct (discount.on_added e d db) as [[db' logs]|]. Qed.

Lemma decisions_for_order_event oid e req orderID traceID evs :
  decisions_for oid (evs ++ [doc_of_OrderCreated (order_event e req orderID traceID)])
  = decisions_for oid evs.
Proof.
  apply decisions_for_snoc_other.
  unfold decision_of, doc_of_OrderCreated. rewrite where_in_type_base.
  simpl. apply andb_false_r.
Qed.

(** What the listener makes of the decision the Ledger wrote, for the
    handler that has just registered. *)
Lemma listener_hears_approved e ev visited :
  order.on_added visited (doc_of_DiscountReserved (approved e ev))
    (<[oc_OrderID ev := None]> ∅)
  = Done (order.Sent (<[oc_OrderID ev := Some (order.Reserved (approved e ev))]>
                        (<[oc_OrderID ev := None]> ∅))).
Proof.
  unfold order.on_added.
  destruct (approved_fields e ev) as (-> & -> & _). simpl.
  rewrite lookup_insert_eq. unfold order.DataTo_unchecked.
  by rewrite DiscountReserved_roundtrip.
Qed.

Lemma listener_hears_rejected e ev visited :
  order.on_added visited (doc_of_DiscountRejected (rejected e ev))
    (<[oc_OrderID ev := None]> ∅)
  = Done (order.Sent (<[oc_OrderID ev := Some (order.Rejected (rejected e ev))]>
                        (<[oc_OrderID ev := None]> ∅))).
Proof.
  unfold order.on_added.
  destruct (rejected_fields e ev) as (-> & -> & _). simpl.
  rewrite lookup_insert_eq. unfold order.DataTo_unchecked.
  by rewrite DiscountRejected_roundtrip.
Qed.

(** X14.  An eligible request, with the store healthy, the counters within
    the quota and no decision yet for its order, served while each party
    runs as soon as it can.  Below the limit without the failure flag:
    the answer is CONFIRMED, the log gains the request and the grant, the
    counter of today goes up by one.  Below the limit with the flag: the
    answer is FAILED, the log gains the request, the grant and the release,
    and every counter is back where it was.  At the limit: the answer is
    REJECTED with the Ledger's reason, the log gains the request and the
    denial, and no counter changes. *)
Theorem saga_outcomes e req orderID traceID db :
  failing e = NoFault →
  order.IsR1Eligible req = true →
  within_quota db →
  decisions_for orderID (events db) = [] →
  let ev := order_event e req orderID traceID in
  let answer code status message :=
    {| order.StatusCode := code;
       order.Body := order.JSON {| order.OrderID := orderID;
                                   order.Status := status;
                                   order.Message := message |} |} in
  ∃ db',
    if reserved db (today e) <? QuotaLimit
    then
      if order.SimulateFailure req
      then
        serve_one e req orderID traceID db
        = Done (db', answer 500 "FAILED"
                       "Payment processing failed. Discount quota has been released.") ∧
        events db'
        = events db ++ [doc_of_OrderCreated ev;
                        doc_of_DiscountReserved (approved e ev);
                        doc_of_DiscountRelease (compensation e orderID traceID)] ∧
        ∀ k, reserved db' k = reserved db k
      else
        serve_one e req orderID traceID db
        = Done (db', answer 200 "CONFIRMED"
                       ("Booking confirmed! Final price: ₹"
                        +:+ gotime.sprintf_2f (order.FinalPrice req)
                        +:+ " (12% discount applied)")) ∧
        events db'
        = events db ++ [doc_of_OrderCreated ev;
                        doc_of_DiscountReserved (approved e ev)] ∧
        reserved db' (today e) = reserved db (today e) + 1
    else
      serve_one e req orderID traceID db
      = Done (db', answer 429 "REJECTED"
                     "Daily discount quota reached. Please try again tomorrow.") ∧
      events db'
      = events db ++ [doc_of_OrderCreated ev;
                      doc_of_DiscountRejected (rejected e ev)] ∧
      ∀ k, reserved db' k = reserved db k.
Proof.
  intros Hf Hel Hinv Hnone ev answer.
  set (db1 := {| events := events db ++ [doc_of_OrderCreated ev];
                 daily_quotas := daily_quotas db |}).
  assert (within_quota db1) as Hinv1 by by apply (within_quota_same_quotas db).
  assert (∀ k, reserved db1 k = reserved db k) as Hres1
    by (intros k; by apply reserved_same_quotas).
  assert (discount.subscribed (doc_of_OrderCreated ev) = true) as Hsub.
  { unfold doc_of_OrderCreated. by rewrite (proj1 (subscribed_base _ _)). }
  (* the Coordinator publishes, the Ledger decides *)
  assert (∃ logs, ledger_catches_up e (length (events db)) db1
                  = Done (if reserved db (today e) <? QuotaLimit
                          then granted_db e ev db1 else denied_db e ev db1, logs))
    as [logs2 Hledger].
  { unfold db1. rewrite ledger_catches_up_snoc, run_one by done. fold db1.
    rewrite on_added_OrderCreated
      by (unfold doc_of_OrderCreated; by rewrite where_eq_type_base).
    destruct (processOrderEvent_decides e ev db1) as [logs ->]; [done|done| |done|].
    - unfold db1. simpl. unfold ev. by rewrite decisions_for_order_event.
    - rewrite Hres1. eauto. }
  unfold serve_one.
  rewrite (handleOrder_begin_eligible e (post req) req) by (done || by rewrite Hf).
  fold ev db1. cbv beta iota. rewrite Hledger. cbv beta iota.
  assert (∀ dec, default order.TimedOut
                   (order.select orderID
                      (<[orderID := Some dec]> (<[orderID := None]> ∅)) false)
                 = order.Received dec) as Hselect.
  { intros dec. unfold order.select. by rewrite lookup_insert_eq. }
  destruct (Z.ltb_spec (reserved db (today e)) QuotaLimit) as [Hlt|Hge].
  - (* granted *)
    pose proof (listener_hears_approved e ev (λ _, true)) as Hlisten.
    change (oc_OrderID ev) with orderID in Hlisten.
    assert (listener_catches_up
              (filter (λ d, order.subscribed d)
                 (drop (length (events db1)) (events (granted_db e ev db1))))
              (<[orderID := None]> ∅)
            = Done (<[orderID := Some (order.Reserved (approved e ev))]>
                      (<[orderID := None]> ∅))) as ->.
    { unfold granted_db. simpl events. rewrite drop_app_length.
      rewrite filter_cons_True, filter_nil.
      - cbn [listener_catches_up]. by rewrite Hlisten.
      - unfold doc_of_DiscountReserved. by rewrite (proj2 (subscribed_base _ _)). }
    rewrite Hselect. unfold order.handleOrder_resume.
    destruct (order.SimulateFailure req).
    + (* the compensation *)
      unfold Add. rewrite decide_False by by rewrite Hf.
      fold (compensation e orderID traceID). cbn [apply_write]. cbv beta iota.
      set (db3 := {| events := events (granted_db e ev db1)
                               ++ [doc_of_DiscountRelease (compensation e orderID traceID)];
                     daily_quotas := daily_quotas (granted_db e ev db1) |}).
      assert (∀ k, reserved db3 k = reserved (granted_db e ev db1) k) as Hres3
        by (intros k; by apply reserved_same_quotas).
      assert (ledger_catches_up e (length (events (granted_db e ev db1))) db3
              = Done (released_db e db3, [Log Info "Quota Compensation Executed"] ++ []))
        as ->.
      { unfold db3. rewrite ledger_catches_up_snoc, run_one.
        2:{ unfold doc_of_DiscountRelease. by rewrite (proj1 (subscribed_base _ _)). }
        fold db3. rewrite on_added_DiscountRelease
          by (unfold doc_of_DiscountRelease; by rewrite where_eq_type_base).
        rewrite (processReleaseEvent_decrement e _ (compensation e orderID traceID) db3
                   ({["count" := VInt (reserved db1 (today e) + 1)]}
                    ∪ default ∅ (daily_quotas db1 !! today e))
                   (reserved db1 (today e) + 1)); [done| | | | |].
        - apply DiscountRelease_roundtrip.
        - done.
        - exact (quotas_granted_db_today e ev db1).
        - apply merge_count_lookup.
        - pose proof (Hinv1 (today e)). pose proof QuotaLimit_bounds.
          unfold max_int64 in *. lia. }
      exists (released_db e db3). split_and!; [done| |].
      * simpl. by rewrite <- !app_assoc.
      * intros k. rewrite reserved_released_db, !Hres3, !reserved_granted_db, !Hres1.
        repeat case_decide; subst; (lia || done).
    + cbv beta iota. rewrite ledger_catches_up_nothing.
      exists (granted_db e ev db1). split_and!; [done| |].
      * simpl. by rewrite <- !app_assoc.
      * rewrite reserved_granted_db, decide_True by done. reflexivity.
  - (* denied *)
    pose proof (listener_hears_rejected e ev (λ _, true)) as Hlisten.
    change (oc_OrderID ev) with orderID in Hlisten.
    assert (listener_catches_up
              (filter (λ d, order.subscribed d)
                 (drop (length (events db1)) (events (denied_db e ev db1))))
              (<[orderID := None]> ∅)
            = Done (<[orderID := Some (order.Rejected (rejected e ev))]>
                      (<[orderID := None]> ∅))) as ->.
    { unfold denied_db. simpl events. rewrite drop_app_length.
      rewrite filter_cons_True, filter_nil.
      - cbn [listener_catches_up]. by rewrite Hlisten.
      - unfold doc_of_DiscountRejected. by rewrite (proj2 (subscribed_base _ _)). }
    rewrite Hselect. unfold order.handleOrder_resume.
    cbv beta iota. rewrite ledger_catches_up_nothing.
    exists (denied_db e ev db1). split_and!; [done| |].
    + simpl. by rewrite <- !app_assoc.
    + intros k. by apply reserved_same_quotas.
Qed.

Lemma saga_outcomes_witness :
  within_quota (taken 7) ∧
  decisions_for "o1" (events (taken 7)) = [] ∧
  ∃ db',
    serve_one feb1 (request true true) "o1" "t1" (taken 7)
    = Done (db',
            {| order.StatusCode := 500;
               order.Body := order.JSON
                 {| order.OrderID := "o1";
                    order.Status := "FAILED";
                    order.Message :=
                      "Payment processing failed. Discount quota has been released." |} |}) ∧
    length (events db') = 3%nat ∧
    reserved db' "2026-02-01" = 7.
Proof.
  assert (within_quota (taken 7)) as Hinv.
  { apply within_quota_taken. vm_compute. split; discriminate. }
  split_and!; [exact Hinv|reflexivity|].
  destruct (saga_outcomes feb1 (request true true) "o1" "t1" (taken 7)
              eq_refl eq_refl Hinv eq_refl) as [db' Hcase].
  change (reserved (taken 7) (today feb1) <? QuotaLimit) with true in Hcase.
  change (order.SimulateFailure (request true true)) with true in Hcase.
  destruct Hcase as (Hrun & Hev & Hres).
  exists db'. split_and!; [exact Hrun| |].
  - rewrite Hev. reflexivity.
  - rewrite Hres. reflexivity.
Defined.

(** ** X15: a reservation nobody waits for *)

(** X15.  An eligible request is published, its handler times out, and
    only then does the Ledger get to the request: with the store healthy
    and room on the counter, the Ledger still grants it and today's counter
    goes up by one.  The handler has answered 504 and left the registry, so
    the listener ignores the grant: nobody confirms the booking and nobody
    publishes a release for it. *)
Theorem timed_out_request_keeps_its_reservation
    e e' r req orderID traceID db responseMap visited :
  order.Method r = "POST" →
  order.Decoded r = Some req →
  order.IsR1Eligible req = true →
  failing e ≠ FailAdd →
  failing e' = NoFault →
  within_quota db →
  decisions_for orderID (events db) = [] →
  reserved db (today e') < QuotaLimit →
  let ev := order_event e req orderID traceID in
  ∃ db1 logs0 logs1 logs2,
    order.handleOrder_begin e r orderID traceID db responseMap
    = (db1, <[orderID := None]> responseMap, logs0, order.Waiting) ∧
    order.handleOrder_resume e req orderID traceID order.TimedOut db1
      (<[orderID := None]> responseMap)
    = (db1, delete orderID responseMap, logs1,
       {| order.StatusCode := 504;
          order.Body := order.Text "Timeout waiting for discount service" |}) ∧
    discount.on_added e' (doc_of_OrderCreated ev) db1
    = Done (granted_db e' ev db1, logs2) ∧
    reserved (granted_db e' ev db1) (today e') = reserved db (today e') + 1 ∧
    added db (granted_db e' ev db1)
    = [doc_of_OrderCreated ev; doc_of_DiscountReserved (approved e' ev)] ∧
    order.on_added visited (doc_of_DiscountReserved (approved e' ev))
      (delete orderID responseMap)
    = Done order.Ignored.
Proof.
  intros Hm Hdec Hel Hf Hf' Hinv Hnone Hlt ev.
  set (db1 := {| events := events db ++ [doc_of_OrderCreated ev];
                 daily_quotas := daily_quotas db |}).
  assert (within_quota db1) as Hinv1 by by apply (within_quota_same_quotas db).
  assert (reserved db1 (today e') = reserved db (today e')) as Hres1
    by by apply reserved_same_quotas.
  destruct (processOrderEvent_decides e' ev db1) as [logs2 Hledger]; [done|done| |done|].
  { unfold db1. simpl. unfold ev. by rewrite decisions_for_order_event. }
  rewrite Hres1, (proj2 (Z.ltb_lt _ _) Hlt) in Hledger.
  exists db1. do 3 eexists. split_and!.
  - by apply handleOrder_begin_eligible.
  - unfold order.handleOrder_resume. by rewrite delete_insert_eq.
  - rewrite on_added_OrderCreated; [exact Hledger|].
    unfold doc_of_OrderCreated. by rewrite where_eq_type_base.
  - rewrite reserved_granted_db, decide_True by done. by rewrite Hres1.
  - unfold added, granted_db, db1. simpl events.
    by rewrite <- app_assoc, drop_app_length.
  - unfold order.on_added.
    destruct (approved_fields e' ev) as (-> & -> & _). simpl.
    change (oc_OrderID ev) with orderID. by rewrite lookup_delete_eq.
Qed.

Lemma timed_out_request_keeps_its_reservation_witness :
  within_quota (taken 7) ∧
  ∃ db1 db2 logs0 logs2,
    order.handleOrder_begin feb1 (post (request true false)) "o1" "t1" (taken 7) ∅
    = (db1, {["o1" := None]}, logs0, order.Waiting) ∧
    discount.on_added feb1_late (doc_of_OrderCreated
                                   (order_event feb1 (request true false) "o1" "t1")) db1
    = Done (db2, logs2) ∧
    reserved db2 "2026-02-01" = 8 ∧
    length (events db2) = 2%nat.
Proof.
  assert (within_quota (taken 7)) as Hinv.
  { apply within_quota_taken. vm_compute. split; discriminate. }
  split; [exact Hinv|].
  destruct (timed_out_request_keeps_its_reservation feb1 feb1_late
              (post (request true false)) (request true false) "o1" "t1" (taken 7) ∅
              (λ _, true))
    as (db1 & logs0 & logs1 & logs2 & Hbegin & _ & Hledger & Hres & Hadded & _).
  - reflexivity.
  - reflexivity.
  - reflexivity.
  - discriminate.
  - reflexivity.
  - exact Hinv.
  - reflexivity.
  - vm_compute. reflexivity.
  - exists db1. eexists. exists logs0, logs2. split_and!; [exact Hbegin|exact Hledger| |].
    + change "2026-02-01" with (today feb1_late). rewrite Hres. reflexivity.
    + injection Hbegin as <- _. reflexivity.
Defined.
